(** * The risk-observation engine of [src/agents/observer_agent.py]

    A shallow embedding of [RiskAnalyzer], [AlertManager], [DatabaseManager]
    and [ObserverAgent], and the properties of the specification that concern
    them.

    Conventions of the embedding.
    - A context is a Python [dict] with string keys: a [gmap string value].
      Its values are the named attributes of the specification (numbers,
      strings, booleans) and the two other values that the code reads,
      [None] and [datetime]; containers and other objects are outside the
      model.
    - A naive [datetime] is its number of microseconds since
      0001-01-01T00:00:00; comparison, [timedelta] arithmetic and the [hour]
      attribute are arithmetic on that number.
    - A Python [float] is [FNaN], an infinity, or the exact rational value of
      the double; Python compares numbers by exact value, so the rules'
      comparisons are comparisons of rationals.
    - Every reading of [datetime.now()] is an explicit argument.
    - An exception is a [Raise] result; the state reached when it escapes is
      kept next to it.
    - What [print] writes to standard output is not part of the model. *)

From Stdlib Require Import ZArith QArith List String Ascii Lia Sorted.
From stdpp Require Import gmap strings list.

Close Scope Q_scope.
Open Scope string_scope.
Open Scope list_scope.

(** ** Python values *)

Module Py.

(** [datetime]: microseconds since 0001-01-01T00:00:00 (naive local time). *)
Record datetime : Type := Datetime { micros : Z }.

Definition micros_per_hour : Z := 3600000000.
Definition micros_per_day : Z := 24 * micros_per_hour.

(** [datetime(...)] from the proleptic ordinal of the date and the time of day. *)
Definition datetime_at (ordinal hh mm ss : Z) : datetime :=
  Datetime ((ordinal - 1) * micros_per_day + hh * micros_per_hour
            + mm * 60000000 + ss * 1000000).

(** [t.hour] *)
Definition hour (t : datetime) : Z := (micros t / micros_per_hour) mod 24.

(** [t - timedelta(days=d)] *)
Definition minus_days (t : datetime) (d : Z) : datetime :=
  Datetime (micros t - d * micros_per_day).

(** [a >= b] on datetimes *)
Definition datetime_ge (a b : datetime) : bool := (micros b <=? micros a)%Z.

(** [float] *)
Inductive pyfloat : Type :=
| FFinite (q : Q)
| FInf (negative : bool)
| FNaN.

Inductive value : Type :=
| VNone
| VBool (b : bool)
| VInt (n : Z)
| VFloat (f : pyfloat)
| VStr (s : string)
| VDatetime (t : datetime).

(** The exceptions of the model.  [TypeError_or_ValueError] stands for one
    of the two where which one is raised depends on the order of insertion
    in a dict, which the model does not record. *)
Inductive exn : Type :=
| TypeError
| AttributeError
| ValueError
| TypeError_or_ValueError.

Inductive result (A : Type) : Type :=
| Ok (a : A)
| Raise (e : exn).
Arguments Ok {A} a.
Arguments Raise {A} e.

(** [bool(v)], the test of an [if] *)
Definition truthy (v : value) : bool :=
  match v with
  | VNone => false
  | VBool b => b
  | VInt n => negb (n =? 0)%Z
  | VFloat (FFinite q) => negb (Qnum q =? 0)%Z
  | VFloat _ => true
  | VStr s => negb (String.length s =? 0)%nat
  | VDatetime _ => true
  end.

(** The numeric value of an operand of [>]; [bool] is a subclass of [int]. *)
Definition as_number (v : value) : option pyfloat :=
  match v with
  | VBool b => Some (FFinite (inject_Z (if b then 1 else 0)))
  | VInt n => Some (FFinite (inject_Z n))
  | VFloat f => Some f
  | _ => None
  end.

Definition Qgtb (a b : Q) : bool :=
  (Qnum b * Zpos (Qden a) <? Qnum a * Zpos (Qden b))%Z.

(** [a > b] on numbers: every comparison with NaN is false. *)
Definition number_gt (a b : pyfloat) : bool :=
  match a, b with
  | FNaN, _ | _, FNaN => false
  | FInf true, _ => false
  | FInf false, FInf false => false
  | FInf false, _ => true
  | FFinite _, FInf negative => negative
  | FFinite x, FFinite y => Qgtb x y
  end.

(** [v > c] for a numeric constant [c]: a non-number on the left has no
    ordering with a number and raises [TypeError]. *)
Definition gt_const (v : value) (c : pyfloat) : result value :=
  match as_number v with
  | Some x => Ok (VBool (number_gt x c))
  | None => Raise TypeError
  end.

(** [str.lower()].  Only the letters A-Z are mapped: no other character
    lowers to a letter of the strings this program compares with. *)
Definition lower_ascii (c : ascii) : ascii :=
  let n := nat_of_ascii c in
  if ((65 <=? n) && (n <=? 90))%nat then ascii_of_nat (n + 32) else c.

Fixpoint lower (s : string) : string :=
  match s with
  | EmptyString => EmptyString
  | String c rest => String (lower_ascii c) (lower rest)
  end.

(** [x in l] for a list of strings *)
Definition str_in (x : string) (l : list string) : bool :=
  existsb (String.eqb x) l.

(** [ctx.get(key, default)] *)
Definition dict_get (ctx : gmap string value) (key : string) (dflt : value) : value :=
  default dflt (ctx !! key).

(** The literals [0.8] and [0.92] as the doubles they denote. *)
Definition float_0_8 : pyfloat := FFinite (3602879701896397 # 4503599627370496).
Definition float_0_92 : pyfloat := FFinite (8286623314361713 # 9007199254740992).

End Py.
Import Py.

(** ** RiskAnalyzer *)

(** A rule: a [lambda ctx: ...]; the first argument is the value of
    [datetime.now()] when the rule is called. *)
Definition rule_func : Type := datetime -> gmap string value -> result value.

Record RiskAnalyzer : Type := { risk_rules : list (string * rule_func) }.

(** [_is_unusual_time]: [timestamp.hour] exists on a [datetime] only. *)
Definition _is_unusual_time (timestamp : value) : result value :=
  match timestamp with
  | VDatetime t => Ok (VBool ((23 <=? hour t)%Z || (hour t <=? 6)%Z))
  | _ => Raise AttributeError
  end.

Definition high_amount : rule_func := fun _ ctx =>
  gt_const (dict_get ctx "amount" (VInt 0)) (FFinite (inject_Z 10000)).

Definition suspicious_country : rule_func := fun _ ctx =>
  match dict_get ctx "country" (VStr EmptyString) with
  | VStr s => Ok (VBool (str_in (lower s) ["nigeria"; "somalia"; "afghanistan"]))
  | _ => Raise AttributeError
  end.

Definition weekend_activity : rule_func := fun _ ctx =>
  Ok (dict_get ctx "is_weekend" (VBool false)).

Definition high_risk_score : rule_func := fun _ ctx =>
  gt_const (dict_get ctx "risk_score" (VInt 0)) float_0_8.

Definition multiple_attempts : rule_func := fun _ ctx =>
  gt_const (dict_get ctx "attempt_count" (VInt 1)) (FFinite (inject_Z 3)).

Definition unusual_time : rule_func := fun now ctx =>
  _is_unusual_time (dict_get ctx "timestamp" (VDatetime now)).

(** [RiskAnalyzer.__init__] *)
Definition RiskAnalyzer_init : RiskAnalyzer :=
  {| risk_rules :=
       [ ("high_amount", high_amount);
         ("suspicious_country", suspicious_country);
         ("weekend_activity", weekend_activity);
         ("high_risk_score", high_risk_score);
         ("multiple_attempts", multiple_attempts);
         ("unusual_time", unusual_time) ] |}.

(** The [for] loop of [analyze_risk]: [triggered_rules] is the accumulator;
    the [except] branch leaves it as it is. *)
Fixpoint eval_rules (rules : list (string * rule_func)) (now : datetime)
    (context : gmap string value) (triggered_rules : list string) : list string :=
  match rules with
  | [] => triggered_rules
  | (rule_name, rule) :: rest =>
      let triggered_rules' :=
        match rule now context with
        | Ok v => if truthy v then triggered_rules ++ [rule_name] else triggered_rules
        | Raise _ => triggered_rules
        end in
      eval_rules rest now context triggered_rules'
  end.

Definition analyze_risk (self : RiskAnalyzer) (now : datetime)
    (context : gmap string value) : string * list string :=
  let triggered_rules := eval_rules (risk_rules self) now context [] in
  if (3 <=? length triggered_rules)%nat then ("CRITICAL", triggered_rules)
  else if (2 <=? length triggered_rules)%nat then ("HIGH", triggered_rules)
  else if (1 <=? length triggered_rules)%nat then ("MEDIUM", triggered_rules)
  else ("LOW", triggered_rules).

(** ** Observation *)

Record Observation : Type := {
  timestamp : datetime;
  user : string;
  action : string;
  context : gmap string value;
  risk_level : string;
  alert_triggered : bool;
  processed : bool
}.

(** [observation.alert_triggered = b] *)
Definition set_alert_triggered (o : Observation) (b : bool) : Observation :=
  {| timestamp := timestamp o; user := user o; action := action o;
     context := context o; risk_level := risk_level o;
     alert_triggered := b; processed := processed o |}.

(** ** DatabaseManager *)

(** What [json.dumps] writes, as the JSON document that the text denotes. *)
Inductive json : Type :=
| JNull
| JBool (b : bool)
| JInt (n : Z)
| JFloat (f : pyfloat)
| JStr (s : string).

(** [sys.get_int_max_str_digits()]: the default of CPython 3.11 and later. *)
Definition int_max_str_digits : Z := 4300.

(** The decimal text of an int can be written: the int has no more than
    [int_max_str_digits] digits, that is [|n| < 10 ^ 4300].  The length in
    bits decides first ([2 ^ 10 <= 10 ^ 4], so an int below [2 ^ 10750] is
    below [10 ^ 4300]) and the exact comparison is made only for longer
    ints. *)
Definition int_str_allowed (n : Z) : bool :=
  if (Z.log2 (Z.abs n) <? 10750)%Z then true
  else (Z.abs n <? 10 ^ int_max_str_digits)%Z.

(** The default encoder of [json]: [None], [bool], [float], [str] and an
    [int] whose decimal text can be written have an encoding; a longer
    [int] and a [datetime] have none. *)
Definition encode (v : value) : option json :=
  match v with
  | VNone => Some JNull
  | VBool b => Some (JBool b)
  | VInt n => if int_str_allowed n then Some (JInt n) else None
  | VFloat f => Some (JFloat f)
  | VStr s => Some (JStr s)
  | VDatetime _ => None
  end.

(** The values without encoding.  On a long int the encoder raises
    [ValueError] ("Exceeds the limit (4300 digits) for integer string
    conversion"), on a datetime [TypeError] ("Object of type datetime is not
    JSON serializable"). *)
Definition is_long_int (v : value) : bool :=
  match v with
  | VInt n => negb (int_str_allowed n)
  | _ => false
  end.

Definition is_datetime (v : value) : bool :=
  match v with
  | VDatetime _ => true
  | _ => false
  end.

(** Some value of the dict satisfies [p]. *)
Definition some_value (p : value -> bool) (d : gmap string value) : bool :=
  existsb (fun entry => p (snd entry)) (map_to_list d).

(** The exception that escapes [json.dumps(d)] for a dict with a value
    without encoding: that of the first such value in the order of
    insertion.  It is [ValueError] when no value is a datetime and
    [TypeError] when no value is a long int; when both are present the
    order of insertion decides, and a [gmap] does not record it. *)
Definition json_error (d : gmap string value) : exn :=
  if some_value is_long_int d
  then if some_value is_datetime d then TypeError_or_ValueError else ValueError
  else TypeError.

(** [json.dumps(d)] for a dict with string keys: the document when every
    value has an encoding, the exception of the encoder otherwise. *)
Definition json_dumps (d : gmap string value) : result (gmap string json) :=
  if bool_decide (map_Forall (λ _ v, is_Some (encode v)) d)
  then Ok (omap encode d)
  else Raise (json_error d).

(** A row of table [observations]; the [id] column is the position of the
    row, the tables being filled by [INSERT] only. *)
Record observation_row : Type := {
  row_timestamp : datetime;
  row_user : string;
  row_action : string;
  row_context : gmap string json;
  row_risk_level : string;
  row_alert_triggered : bool;
  row_processed : bool
}.

(** A row of table [alerts]. *)
Record alert_row : Type := {
  alert_timestamp : datetime;
  alert_user : string;
  alert_type : string;
  alert_message : string;
  alert_severity : string;
  alert_acknowledged : bool
}.

(** The SQLite file at [db_path], rows in insertion order. *)
Record Database : Type := {
  observations : list observation_row;
  alerts : list alert_row
}.

(** [DatabaseManager.save_observation]: the arguments of [execute] are
    evaluated first, so a failing [json.dumps] leaves the file as it was. *)
Definition save_observation (db : Database) (observation : Observation) : result Database :=
  match json_dumps (context observation) with
  | Raise e => Raise e
  | Ok text =>
      Ok {| observations := observations db ++
              [ {| row_timestamp := timestamp observation;
                   row_user := user observation;
                   row_action := action observation;
                   row_context := text;
                   row_risk_level := risk_level observation;
                   row_alert_triggered := alert_triggered observation;
                   row_processed := processed observation |} ];
            alerts := alerts db |}
  end.

(** ** AlertManager *)

Record AlertManager : Type := { alert_thresholds : gmap string Z }.

Definition AlertManager_init : AlertManager :=
  {| alert_thresholds :=
       <["CRITICAL" := 0%Z]> (<["HIGH" := 1%Z]> (<["MEDIUM" := 3%Z]> (<["LOW" := 10%Z]> ∅))) |}.

Definition should_alert (self : AlertManager) (observation : Observation) : bool :=
  let risk_level := risk_level observation in
  let threshold := default 5%Z (alert_thresholds self !! risk_level) in
  if String.eqb risk_level "CRITICAL" then true
  else true.

(** [AlertManager.create_alert]; [acknowledged] takes the column default. *)
Definition create_alert (db : Database) (now : datetime) (observation : Observation)
    (triggered_rules : list string) : Database :=
  let alert_message :=
    ("Risk detected for user " ++ user observation ++ ": "
       ++ String.concat ", " triggered_rules)%string in
  {| observations := observations db;
     alerts := alerts db ++
       [ {| alert_timestamp := now;
            alert_user := user observation;
            alert_type := action observation;
            alert_message := alert_message;
            alert_severity := risk_level observation;
            alert_acknowledged := false |} ] |}.

(** ** ObserverAgent *)

Record ObserverAgent : Type := {
  observed_actions : list Observation;
  database : Database;
  risk_analyzer : RiskAnalyzer;
  alert_manager : AlertManager;
  is_monitoring : bool;
  stats : gmap string nat
}.

(** [ObserverAgent.__init__]; [db] is what the file at [db_path] holds. *)
Definition ObserverAgent_init (db : Database) : ObserverAgent :=
  {| observed_actions := [];
     database := db;
     risk_analyzer := RiskAnalyzer_init;
     alert_manager := AlertManager_init;
     is_monitoring := false;
     stats := ∅ |}.

(** The three readings of [datetime.now()] during one [watch_action], in the
    order they are made. *)
Record Clock : Type := {
  now_rules : datetime;
  now_observation : datetime;
  now_alert : datetime
}.

(** Methods of the agent: the state after the call, with the value returned
    or the exception that escaped. *)
Definition M (A : Type) : Type := ObserverAgent -> result A * ObserverAgent.

Definition ret {A} (a : A) : M A := fun self => (Ok a, self).

Definition bind {A B} (m : M A) (k : A -> M B) : M B := fun self =>
  match m self with
  | (Ok a, self') => k a self'
  | (Raise e, self') => (Raise e, self')
  end.

Notation "'let!' x ':=' m 'in' k" := (bind m (fun x => k))
  (at level 10, x name, m at level 100, k at level 200).
Notation "m >>> k" := (bind m (fun _ => k))
  (at level 90, right associativity).

Definition get_self : M ObserverAgent := fun self => (Ok self, self).

Definition set_database (db : Database) : M unit := fun self =>
  (Ok tt, {| observed_actions := observed_actions self; database := db;
             risk_analyzer := risk_analyzer self;
             alert_manager := alert_manager self;
             is_monitoring := is_monitoring self; stats := stats self |}).

Definition set_observed_actions (l : list Observation) : M unit := fun self =>
  (Ok tt, {| observed_actions := l; database := database self;
             risk_analyzer := risk_analyzer self;
             alert_manager := alert_manager self;
             is_monitoring := is_monitoring self; stats := stats self |}).

Definition set_stats (s : gmap string nat) : M unit := fun self =>
  (Ok tt, {| observed_actions := observed_actions self; database := database self;
             risk_analyzer := risk_analyzer self;
             alert_manager := alert_manager self;
             is_monitoring := is_monitoring self; stats := s |}).

(** [raise] / return of a call that may fail *)
Definition lift {A} (r : result A) : M A := fun self => (r, self).

(** [stats[key] += 1] on a [defaultdict(int)] *)
Definition incr (key : string) (s : gmap string nat) : gmap string nat :=
  <[key := S (default 0 (s !! key))]> s.

Definition watch_action (clk : Clock) (user action : string)
    (context : gmap string value) : M Observation :=
  let! self := get_self in
  let '(risk_level, triggered_rules) :=
    analyze_risk (risk_analyzer self) (now_rules clk) context in
  let observation :=
    {| timestamp := now_observation clk; user := user; action := action;
       context := context; risk_level := risk_level;
       alert_triggered := false; processed := false |} in
  let! observation :=
    (if should_alert (alert_manager self) observation
     then
       let observation := set_alert_triggered observation true in
       set_database
         (create_alert (database self) (now_alert clk) observation triggered_rules) >>>
       ret observation
     else ret observation) in
  let! self := get_self in
  let! db := lift (save_observation (database self) observation) in
  set_database db >>>
  let! self := get_self in
  set_observed_actions (observed_actions self ++ [observation]) >>>
  let! self := get_self in
  (if (1000 <? length (observed_actions self))%nat
   then set_observed_actions (tl (observed_actions self))
   else ret tt) >>>
  let! self := get_self in
  set_stats (incr "total_observations" (stats self)) >>>
  let! self := get_self in
  set_stats (incr ("risk_" ++ lower risk_level)%string (stats self)) >>>
  let! self := get_self in
  (if alert_triggered observation
   then set_stats (incr "total_alerts" (stats self))
   else ret tt) >>>
  ret observation.

(** [ObserverAgent._cleanup_old_observations] *)
Definition _cleanup_old_observations (now : datetime) : M unit :=
  let! self := get_self in
  let cutoff_time := minus_days now 7 in
  set_observed_actions
    (List.filter (fun obs => datetime_ge (timestamp obs) cutoff_time)
       (observed_actions self)).

(** ** Sequences of calls *)

Inductive call : Type :=
| Watch (clk : Clock) (user action : string) (context : gmap string value)
| Cleanup (now : datetime).

(** One call on the agent; an exception that escapes [watch_action] is caught
    by the caller, as [submit_observation] does. *)
Definition do_call (c : call) (self : ObserverAgent) : option Observation * ObserverAgent :=
  match c with
  | Watch clk user action context =>
      match watch_action clk user action context self with
      | (Ok o, self') => (Some o, self')
      | (Raise _, self') => (None, self')
      end
  | Cleanup now => (None, snd (_cleanup_old_observations now self))
  end.

(** The calls in order; the observations returned, in order, and the final
    state. *)
Fixpoint run (calls : list call) (self : ObserverAgent) : list Observation * ObserverAgent :=
  match calls with
  | [] => ([], self)
  | c :: rest =>
      let '(r, self') := do_call c self in
      let '(outs, self'') := run rest self' in
      (match r with Some o => o :: outs | None => outs end, self'')
  end.

Definition is_watch (c : call) : bool :=
  match c with Watch _ _ _ _ => true | Cleanup _ => false end.

(** ** Notions of the specification *)

(** A rule triggers on a context when its predicate returns a true value; a
    predicate that raises does not trigger. *)
Definition triggers (rule : rule_func) (now : datetime) (ctx : gmap string value) : bool :=
  match rule now ctx with
  | Ok v => truthy v
  | Raise _ => false
  end.

(** The names of the rules of a catalog that trigger, in the order of the
    catalog. *)
Definition triggered_names (rules : list (string * rule_func)) (now : datetime)
    (ctx : gmap string value) : list string :=
  map fst (List.filter (fun r => triggers (snd r) now ctx) rules).

(** The decision table of the specification, from the number of triggered
    rules to the risk level. *)
Definition decision_table (k : nat) : string :=
  match k with
  | 0 => "LOW"
  | 1 => "MEDIUM"
  | 2 => "HIGH"
  | _ => "CRITICAL"
  end.

(** A catalog without the rule of a given name. *)
Definition without_rule (name : string) (rules : list (string * rule_func)) :
    list (string * rule_func) :=
  List.filter (fun r => negb (String.eqb (fst r) name)) rules.

(** A context that [json.dumps] accepts. *)
Definition serializable (ctx : gmap string value) : Prop :=
  map_Forall (λ _ v, is_Some (encode v)) ctx.

(** The cap of the in-memory list and the horizon of the sweep. *)
Definition max_observed : nat := 1000.
Definition horizon_days : Z := 7.

(** An observation is within the horizon at time [now]. *)
Definition within_horizon (now : datetime) (o : Observation) : Prop :=
  (micros now - horizon_days * micros_per_day <= micros (timestamp o))%Z.

#[global] Instance within_horizon_dec now o : Decision (within_horizon now o) :=
  Z.le_dec _ _.

(** The last [n] elements of a list. *)
Definition keep_last {A} (n : nat) (l : list A) : list A :=
  skipn (length l - n) l.

(** ** Concrete inputs *)

(** 2024-01-06 (a Saturday, ordinal 738891) at 12:00 and at 02:00. *)
Definition noon : datetime := datetime_at 738891 12 0 0.
Definition night : datetime := datetime_at 738891 2 0 0.

Definition clock_at (t : datetime) : Clock :=
  {| now_rules := t; now_observation := t; now_alert := t |}.

(** A database file with its two tables empty. *)
Definition empty_db : Database := {| observations := []; alerts := [] |}.

(** [{"amount": 9500, "country": "india", "is_weekend": True,
      "risk_score": 0.92, "attempt_count": 1}] *)
Definition priya_context : gmap string value :=
  <["amount" := VInt 9500]> (<["country" := VStr "india"]>
  (<["is_weekend" := VBool true]> (<["risk_score" := VFloat float_0_92]>
  (<["attempt_count" := VInt 1]> ∅)))).

(** [{"amount": 0}] *)
Definition bob_context : gmap string value := <["amount" := VInt 0]> ∅.

(** [{"amount": "lots", "is_weekend": True, "risk_score": 0.92}]:
    [high_amount] compares a [str] with an [int]; two other rules trigger. *)
Definition text_amount_context : gmap string value :=
  <["amount" := VStr "lots"]> (<["is_weekend" := VBool true]>
  (<["risk_score" := VFloat float_0_92]> ∅)).

(** [{"timestamp": datetime(2024, 1, 6, 12, 0)}] *)
Definition stamped_context : gmap string value := <["timestamp" := VDatetime noon]> ∅.

(** The context that [submit_observation] builds from the form values
    20000, "Nigeria", 0.9, checked, 1 at noon: amount and risk score are
    floats and the key "timestamp" holds [datetime.now()]. *)
Definition form_context : gmap string value :=
  <["amount" := VFloat (FFinite (inject_Z 20000))]>
  (<["country" := VStr "Nigeria"]>
  (<["risk_score" := VFloat (FFinite (8106479329266893 # 9007199254740992))]>
  (<["is_weekend" := VBool true]> (<["attempt_count" := VInt 1]>
  (<["timestamp" := VDatetime noon]> ∅))))).

(** The call of the scenario, [i] seconds after noon. *)
Definition priya_call (i : nat) : call :=
  Watch (clock_at (Datetime (micros noon + Z.of_nat i * 1000000)))
    "Priya" "flagged_transaction" priya_context.

(** [n] calls of the scenario, one second apart. *)
Definition priya_calls (n : nat) : list call := map priya_call (seq 0 n).

(** The observation that the call [priya_call i] returns. *)
Definition priya_observation (i : nat) : Observation :=
  {| timestamp := Datetime (micros noon + Z.of_nat i * 1000000); user := "Priya";
     action := "flagged_transaction"; context := priya_context;
     risk_level := "HIGH"; alert_triggered := true; processed := false |}.

(** ** Queries on the in-memory list *)

(** [datetime.max], 9999-12-31T23:59:59.999999, in microseconds. *)
Definition datetime_max_micros : Z := 3652059 * micros_per_day - 1.

(** [t - timedelta(hours=h)] for a datetime [t]: [None] stands for the
    [OverflowError] that Python raises when the result is not a date of the
    years 1 to 9999 (a [timedelta] too large to build gives such a result). *)
Definition minus_hours (t : datetime) (h : Z) : option datetime :=
  let m := (micros t - h * micros_per_hour)%Z in
  if ((0 <=? m) && (m <=? datetime_max_micros))%Z then Some (Datetime m) else None.

(** [ObserverAgent.get_recent_observations]; [None] when the cutoff time
    cannot be computed. *)
Definition get_recent_observations (now : datetime) (hours : Z) (self : ObserverAgent) :
    option (list Observation) :=
  match minus_hours now hours with
  | Some cutoff_time =>
      Some (List.filter (fun obs => datetime_ge (timestamp obs) cutoff_time)
              (observed_actions self))
  | None => None
  end.

(** [ObserverAgent.get_user_activity] *)
Definition get_user_activity (who : string) (self : ObserverAgent) : list Observation :=
  List.filter (fun obs => String.eqb (user obs) who) (observed_actions self).

(** [stats[key]] read on the [defaultdict(int)] *)
Definition stat (key : string) (self : ObserverAgent) : nat :=
  default 0%nat (stats self !! key).

(** ** Reading the database *)

(** [ORDER BY timestamp DESC]: insertion into a list that is in descending
    order of timestamp.  The ISO text of naive datetimes orders as the
    datetimes do.  SQL leaves the order of rows with the same timestamp
    open; here the row inserted earlier comes first. *)
Fixpoint insert_desc (r : nat * observation_row) (sorted : list (nat * observation_row)) :
    list (nat * observation_row) :=
  match sorted with
  | [] => [r]
  | x :: rest =>
      if (micros (row_timestamp (snd x)) <=? micros (row_timestamp (snd r)))%Z
      then r :: x :: rest
      else x :: insert_desc r rest
  end.

Definition order_by_timestamp_desc (rows : list (nat * observation_row)) :
    list (nat * observation_row) :=
  foldr insert_desc [] rows.

(** The rows of [observations] with their [id] column. *)
Definition with_ids (rows : list observation_row) : list (nat * observation_row) :=
  combine (seq 1 (length rows)) rows.

(** [DatabaseManager.get_observations]: each row with its id; a negative
    [LIMIT] is no limit.  [None] stands for the [OverflowError] of binding an
    integer that does not fit 64 bits. *)
Definition get_observations (db : Database) (limit : Z) :
    option (list (nat * observation_row)) :=
  if ((- 2 ^ 63 <=? limit) && (limit <? 2 ^ 63))%Z
  then
    let sorted := order_by_timestamp_desc (with_ids (observations db)) in
    Some (if (limit <? 0)%Z then sorted else firstn (Z.to_nat limit) sorted)
  else None.

(** The row that [save_observation] writes for an observation whose context
    has the JSON document [text]. *)
Definition row_of (o : Observation) (text : gmap string json) : observation_row :=
  {| row_timestamp := timestamp o; row_user := user o; row_action := action o;
     row_context := text; row_risk_level := risk_level o;
     row_alert_triggered := alert_triggered o; row_processed := processed o |}.

(** ** The form and the simulation *)

(** What [submit_observation] reports: the text for a recorded observation,
    or the text of the error caught. *)
Inductive form_result : Type :=
| Recorded (o : Observation)
| Failed.

Section Builtins.
(** The builtins [float(x)] and [int(x)]; [None] when they raise. *)
Variable py_float : value -> option value.
Variable py_int : value -> option value.

(** The dict that [submit_observation] builds; [now] is the value of its own
    [datetime.now()]. *)
Definition submit_context (now : datetime)
    (amount country risk_score is_weekend attempt_count : value) :
    option (gmap string value) :=
  match (if truthy amount then py_float amount else Some (VInt 0)),
        (if truthy risk_score then py_float risk_score else Some (VInt 0)),
        (if truthy attempt_count then py_int attempt_count else Some (VInt 1)) with
  | Some amount', Some risk_score', Some attempt_count' =>
      Some (<["amount" := amount']>
           (<["country" := if truthy country then country else VStr "Unknown"]>
           (<["risk_score" := risk_score']>
           (<["is_weekend" := is_weekend]>
           (<["attempt_count" := attempt_count']>
           (<["timestamp" := VDatetime now]> ∅))))))
  | _, _, _ => None
  end.

(** [submit_observation]: every exception is caught and reported. *)
Definition submit_observation (now : datetime) (clk : Clock) (user action : string)
    (amount country risk_score is_weekend attempt_count : value)
    (self : ObserverAgent) : form_result * ObserverAgent :=
  match submit_context now amount country risk_score is_weekend attempt_count with
  | None => (Failed, self)
  | Some context =>
      match watch_action clk user action context self with
      | (Ok o, self') => (Recorded o, self')
      | (Raise _, self') => (Failed, self')
      end
  end.
End Builtins.

(** What one iteration of [simulate_realistic_data] draws from [random] and
    reads from the clock; [sample_timestamp] is the value of
    [datetime.now() - timedelta(hours=random.randint(0, 168))], and
    [random.randint(1, 5)] is [1 + sample_attempt_draw mod 5]. *)
Record sample : Type := {
  sample_clock : Clock;
  sample_user : string;
  sample_action : string;
  sample_amount : pyfloat;
  sample_country : string;
  sample_risk_score : pyfloat;
  sample_is_weekend : bool;
  sample_attempt_draw : Z;
  sample_timestamp : datetime
}.

Definition sample_context (s : sample) : gmap string value :=
  <["amount" := VFloat (sample_amount s)]>
  (<["country" := VStr (sample_country s)]>
  (<["risk_score" := VFloat (sample_risk_score s)]>
  (<["is_weekend" := VBool (sample_is_weekend s)]>
  (<["attempt_count" := VInt (1 + sample_attempt_draw s mod 5)]>
  (<["timestamp" := VDatetime (sample_timestamp s)]> ∅))))).

(** [simulate_realistic_data]: one [watch_action] for each iteration; an
    exception ends the loop and escapes. *)
Fixpoint simulate_realistic_data (samples : list sample) : M unit :=
  match samples with
  | [] => ret tt
  | s :: rest =>
      watch_action (sample_clock s) (sample_user s) (sample_action s) (sample_context s) >>>
      simulate_realistic_data rest
  end.

(** The times written in the observations of the [watch_action] calls of a
    sequence. *)
Definition watch_times (calls : list call) : list Z :=
  flat_map (fun c => match c with
                     | Watch clk _ _ _ => [micros (now_observation clk)]
                     | Cleanup _ => []
                     end) calls.

(** The four risk levels. *)
Definition risk_levels : list string := ["LOW"; "MEDIUM"; "HIGH"; "CRITICAL"].

(** ** The classifier *)

Section Classifier.
Variable now : datetime.
Variable ctx : gmap string value.

Lemma eval_rules_acc rules acc :
  eval_rules rules now ctx acc = acc ++ triggered_names rules now ctx.
Proof.
  revert acc. induction rules as [|[name rule] rest IH]; intros acc.
  - cbn. by rewrite app_nil_r.
  - cbn [eval_rules]. rewrite IH. unfold triggered_names, triggers. cbn.
    destruct (rule now ctx) as [v|e]; [destruct (truthy v)|]; cbn;
      by rewrite <- ?app_assoc.
Qed.

Lemma eval_rules_triggered rules :
  eval_rules rules now ctx [] = triggered_names rules now ctx.
Proof. by rewrite eval_rules_acc. Qed.

Lemma analyze_risk_table self :
  analyze_risk self now ctx =
    (decision_table (length (triggered_names (risk_rules self) now ctx)),
     triggered_names (risk_rules self) now ctx).
Proof.
  unfold analyze_risk. rewrite eval_rules_triggered.
  destruct (triggered_names (risk_rules self) now ctx) as [|a [|b [|c l]]]; reflexivity.
Qed.

Lemma triggered_names_in rules name :
  In name (triggered_names rules now ctx) ->
  exists rule, In (name, rule) rules /\ triggers rule now ctx = true.
Proof.
  unfold triggered_names. rewrite in_map_iff. intros [[n r] [Hn Hin]].
  apply filter_In in Hin as [Hin Ht]. cbn in *. subst. eauto.
Qed.

Lemma triggered_names_without rules name :
  (forall rule, In (name, rule) rules -> triggers rule now ctx = false) ->
  triggered_names (without_rule name rules) now ctx = triggered_names rules now ctx.
Proof.
  induction rules as [|[n r] rest IH]; intros Hname; [reflexivity|].
  assert (Hrest : forall rule, In (name, rule) rest -> triggers rule now ctx = false)
    by (intros rule Hin; apply Hname; by right).
  specialize (IH Hrest). unfold triggered_names, without_rule in *. cbn.
  destruct (String.eqb_spec n name) as [->|Hne]; cbn.
  - rewrite (Hname r) by (by left). exact IH.
  - destruct (triggers r now ctx); cbn; by rewrite IH.
Qed.
End Classifier.

Lemma fst_functional (rules : list (string * rule_func)) name r1 r2 :
  List.NoDup (map fst rules) -> In (name, r1) rules -> In (name, r2) rules -> r1 = r2.
Proof.
  induction rules as [|[n r] rest IH]; cbn; [tauto|].
  intros Hnd [H1|H1] [H2|H2]; inversion Hnd as [|? ? Hnotin Hnd']; subst.
  - congruence.
  - inversion H1; subst. exfalso. apply Hnotin. apply in_map_iff. by exists (name, r2).
  - inversion H2; subst. exfalso. apply Hnotin. apply in_map_iff. by exists (name, r1).
  - by apply IH.
Qed.

Lemma catalog_names_nodup : List.NoDup (map fst (risk_rules RiskAnalyzer_init)).
Proof.
  cbn. repeat (constructor; [cbn; intuition discriminate|]). constructor.
Qed.

(** C1: the classifier returns the level that the decision table gives for
    the number of triggered rules (0: LOW, 1: MEDIUM, 2: HIGH, 3 or more:
    CRITICAL) together with the names of the triggered rules in the order
    of the catalog. *)
Theorem analyze_risk_decision_table (now : datetime) (ctx : gmap string value) :
  let names := triggered_names (risk_rules RiskAnalyzer_init) now ctx in
  analyze_risk RiskAnalyzer_init now ctx = (decision_table (length names), names)
  /\ decision_table 0 = "LOW" /\ decision_table 1 = "MEDIUM"
  /\ decision_table 2 = "HIGH"
  /\ forall k, decision_table (3 + k) = "CRITICAL".
Proof.
  cbn zeta. split; [apply analyze_risk_table|]. repeat split.
Qed.

Lemma triggered_names_in_iff rules now ctx name :
  In name (triggered_names rules now ctx) <->
  exists rule, In (name, rule) rules /\ triggers rule now ctx = true.
Proof.
  split; [apply triggered_names_in|].
  intros (rule & Hin & Ht). unfold triggered_names. apply in_map_iff.
  exists (name, rule). split; [reflexivity|]. apply filter_In. by split.
Qed.

Lemma triggers_true rule now ctx :
  triggers rule now ctx = true <-> exists v, rule now ctx = Ok v /\ truthy v = true.
Proof.
  unfold triggers. destruct (rule now ctx) as [v|e].
  - split; [eauto|]. by intros (w & [= <-] & Hw).
  - split; [discriminate|]. by intros (w & Hw & _).
Qed.

(** C4: when the predicate of a rule of the catalog raises, the name of the
    rule is not in the list returned and the classification completes on
    the other rules: the name of any other rule is in the list exactly when
    its predicate returns a true value, the list is that of the triggered
    rules of the catalog without the failing rule, in the order of the
    catalog, the level is the level of the table for the length of the
    list, and the whole result is what the classifier returns for the
    catalog without the failing rule. *)
Theorem rule_error_isolated (now : datetime) (ctx : gmap string value)
    (name : string) (rule : rule_func) (e : exn) :
  In (name, rule) (risk_rules RiskAnalyzer_init) ->
  rule now ctx = Raise e ->
  ~ In name (snd (analyze_risk RiskAnalyzer_init now ctx))
  /\ (forall name' rule',
        In (name', rule') (risk_rules RiskAnalyzer_init) -> name' <> name ->
        (In name' (snd (analyze_risk RiskAnalyzer_init now ctx)) <->
         exists v, rule' now ctx = Ok v /\ truthy v = true))
  /\ snd (analyze_risk RiskAnalyzer_init now ctx) =
     triggered_names (without_rule name (risk_rules RiskAnalyzer_init)) now ctx
  /\ fst (analyze_risk RiskAnalyzer_init now ctx) =
     decision_table (length (snd (analyze_risk RiskAnalyzer_init now ctx)))
  /\ analyze_risk RiskAnalyzer_init now ctx =
     analyze_risk {| risk_rules := without_rule name (risk_rules RiskAnalyzer_init) |}
       now ctx.
Proof.
  intros Hin Hraise.
  assert (Hoff : forall r, In (name, r) (risk_rules RiskAnalyzer_init) ->
                           triggers r now ctx = false).
  { intros r Hr. rewrite (fst_functional _ _ _ _ catalog_names_nodup Hr Hin).
    unfold triggers. by rewrite Hraise. }
  split; [|split; [|split; [|split]]].
  - rewrite analyze_risk_table. cbn [snd]. intros Hname.
    apply triggered_names_in in Hname as (r & Hr & Ht).
    rewrite (Hoff r Hr) in Ht. discriminate.
  - intros name' rule' Hin' _. rewrite analyze_risk_table. cbn [snd].
    rewrite triggered_names_in_iff, <- triggers_true. split.
    + intros (r & Hr & Ht).
      by rewrite (fst_functional _ _ _ _ catalog_names_nodup Hin' Hr).
    + intros Ht. by exists rule'.
  - rewrite analyze_risk_table. cbn [snd].
    by rewrite (triggered_names_without now ctx _ name Hoff).
  - by rewrite analyze_risk_table.
  - rewrite !analyze_risk_table. cbn [risk_rules].
    by rewrite (triggered_names_without now ctx _ name Hoff).
Qed.

(** On [{"amount": "lots", "is_weekend": True, "risk_score": 0.92}] at noon
    [high_amount] raises, and the two rules that trigger are returned with
    the level HIGH. *)
Lemma rule_error_isolated_witness :
  (high_amount noon text_amount_context = Raise TypeError
   /\ analyze_risk RiskAnalyzer_init noon text_amount_context =
      ("HIGH", ["weekend_activity"; "high_risk_score"]))
  /\ ~ In "high_amount" (snd (analyze_risk RiskAnalyzer_init noon text_amount_context))
  /\ (forall name' rule',
        In (name', rule') (risk_rules RiskAnalyzer_init) -> name' <> "high_amount" ->
        (In name' (snd (analyze_risk RiskAnalyzer_init noon text_amount_context)) <->
         exists v, rule' noon text_amount_context = Ok v /\ truthy v = true))
  /\ snd (analyze_risk RiskAnalyzer_init noon text_amount_context) =
     triggered_names (without_rule "high_amount" (risk_rules RiskAnalyzer_init))
       noon text_amount_context
  /\ fst (analyze_risk RiskAnalyzer_init noon text_amount_context) =
     decision_table
       (length (snd (analyze_risk RiskAnalyzer_init noon text_amount_context)))
  /\ analyze_risk RiskAnalyzer_init noon text_amount_context =
     analyze_risk
       {| risk_rules := without_rule "high_amount" (risk_rules RiskAnalyzer_init) |}
       noon text_amount_context.
Proof.
  split; [split; vm_compute; reflexivity|].
  apply (rule_error_isolated noon text_amount_context "high_amount" high_amount TypeError).
  - cbn. by left.
  - vm_compute. reflexivity.
Defined.

Lemma eval_rules_ext rules now1 now2 ctx acc :
  Forall (fun r => snd r now1 ctx = snd r now2 ctx) rules ->
  eval_rules rules now1 ctx acc = eval_rules rules now2 ctx acc.
Proof.
  intros Hall. revert acc.
  induction Hall as [|[name rule] rest Hr _ IH]; intros acc; [reflexivity|].
  cbn in *. rewrite Hr. apply IH.
Qed.

(** The clock reaches the classifier through [unusual_time] only, and only
    its hour matters. *)
Lemma unusual_time_clock now1 now2 ctx :
  is_Some (ctx !! "timestamp") \/ hour now1 = hour now2 ->
  unusual_time now1 ctx = unusual_time now2 ctx.
Proof.
  unfold unusual_time, dict_get. intros [[v Hv]|Hh].
  - by rewrite Hv.
  - destruct (ctx !! "timestamp"); cbn; [reflexivity|]. by rewrite Hh.
Qed.

(** C8, counterexample: the empty context is classified MEDIUM at 02:00 and
    LOW at 12:00. *)
Lemma analyze_risk_depends_on_clock :
  analyze_risk RiskAnalyzer_init night ∅ = ("MEDIUM", ["unusual_time"])
  /\ analyze_risk RiskAnalyzer_init noon ∅ = ("LOW", [])
  /\ analyze_risk RiskAnalyzer_init night ∅ <> analyze_risk RiskAnalyzer_init noon ∅.
Proof. repeat split. discriminate. Qed.

(** C8, amended: two calls of the classifier with the same context return
    the same pair when the context has a "timestamp" key, or when the clock
    shows the same hour at both calls. *)
Theorem analyze_risk_deterministic (ctx : gmap string value) (now1 now2 : datetime) :
  is_Some (ctx !! "timestamp") \/ hour now1 = hour now2 ->
  analyze_risk RiskAnalyzer_init now1 ctx = analyze_risk RiskAnalyzer_init now2 ctx.
Proof.
  intros H. unfold analyze_risk.
  rewrite (eval_rules_ext (risk_rules RiskAnalyzer_init) now1 now2 ctx []); [reflexivity|].
  cbn [risk_rules RiskAnalyzer_init].
  repeat (constructor; [try reflexivity|]); [|constructor].
  cbn [snd]. by apply unusual_time_clock.
Qed.

(** A context with a "timestamp" key, classified at 02:00 and at 12:00. *)
Lemma analyze_risk_deterministic_witness :
  analyze_risk RiskAnalyzer_init night stamped_context =
  analyze_risk RiskAnalyzer_init noon stamped_context.
Proof.
  apply (analyze_risk_deterministic stamped_context night noon).
  left. vm_compute. eauto.
Defined.

(** ** The engine *)

(** [watch_action] in one step: the alert is written first, then the
    observation; when the second write raises, the first stays. *)
Lemma watch_action_unfold clk u a ctx self :
  let classified := analyze_risk (risk_analyzer self) (now_rules clk) ctx in
  let o :=
    {| timestamp := now_observation clk; user := u; action := a; context := ctx;
       risk_level := fst classified; alert_triggered := true; processed := false |} in
  let db1 := create_alert (database self) (now_alert clk) o (snd classified) in
  watch_action clk u a ctx self =
    match save_observation db1 o with
    | Raise e =>
        (Raise e,
         {| observed_actions := observed_actions self; database := db1;
            risk_analyzer := risk_analyzer self; alert_manager := alert_manager self;
            is_monitoring := is_monitoring self; stats := stats self |})
    | Ok db2 =>
        (Ok o,
         {| observed_actions :=
              (if (1000 <? length (observed_actions self ++ [o]))%nat
               then tl (observed_actions self ++ [o])
               else observed_actions self ++ [o]);
            database := db2;
            risk_analyzer := risk_analyzer self; alert_manager := alert_manager self;
            is_monitoring := is_monitoring self;
            stats :=
              incr "total_alerts"
                (incr ("risk_" ++ lower (fst classified))%string
                   (incr "total_observations" (stats self))) |})
    end.
Proof.
  cbn zeta. unfold watch_action, bind, get_self.
  destruct (analyze_risk (risk_analyzer self) (now_rules clk) ctx) as [level names].
  cbn [fst snd]. unfold should_alert.
  replace (if String.eqb _ "CRITICAL" then true else true) with true
    by (by destruct (String.eqb _ _)).
  cbn -[save_observation create_alert incr lower String.append Nat.ltb].
  destruct (save_observation _ _) as [db2|e]; [|reflexivity].
  cbn -[incr lower String.append Nat.ltb].
  by destruct (1000 <? _)%nat.
Qed.

Lemma json_dumps_serializable ctx :
  serializable ctx -> json_dumps ctx = Ok (omap encode ctx).
Proof. intros H. unfold json_dumps. by rewrite bool_decide_eq_true_2. Qed.

Lemma json_dumps_datetime ctx key t :
  ctx !! key = Some (VDatetime t) -> json_dumps ctx = Raise (json_error ctx).
Proof.
  intros Hk. unfold json_dumps. rewrite bool_decide_eq_false_2; [reflexivity|].
  intros Hall. destruct (Hall key _ Hk) as [j Hj]. discriminate.
Qed.

(** A serializable context: the call returns the observation, the alert and
    the row are appended to their tables, the observation to the list. *)
Lemma watch_action_ok clk u a ctx self :
  serializable ctx ->
  let classified := analyze_risk (risk_analyzer self) (now_rules clk) ctx in
  let o :=
    {| timestamp := now_observation clk; user := u; action := a; context := ctx;
       risk_level := fst classified; alert_triggered := true; processed := false |} in
  watch_action clk u a ctx self =
    (Ok o,
     {| observed_actions :=
          (if (1000 <? length (observed_actions self ++ [o]))%nat
           then tl (observed_actions self ++ [o])
           else observed_actions self ++ [o]);
        database :=
          {| observations := observations (database self) ++
               [ {| row_timestamp := now_observation clk; row_user := u;
                    row_action := a; row_context := omap encode ctx;
                    row_risk_level := fst classified;
                    row_alert_triggered := true; row_processed := false |} ];
             alerts := alerts (database self) ++
               [ {| alert_timestamp := now_alert clk; alert_user := u;
                    alert_type := a;
                    alert_message :=
                      ("Risk detected for user " ++ u ++ ": "
                       ++ String.concat ", " (snd classified))%string;
                    alert_severity := fst classified;
                    alert_acknowledged := false |} ] |};
        risk_analyzer := risk_analyzer self; alert_manager := alert_manager self;
        is_monitoring := is_monitoring self;
        stats :=
          incr "total_alerts"
            (incr ("risk_" ++ lower (fst classified))%string
               (incr "total_observations" (stats self))) |}).
Proof.
  intros Hser. cbn zeta. rewrite watch_action_unfold. cbn zeta.
  unfold save_observation. cbn [context]. by rewrite json_dumps_serializable.
Qed.

(** A context that is not serializable: the exception of [json.dumps]
    escapes after the alert was written; the list and the statistics are as
    before. *)
Lemma watch_action_raise clk u a ctx self :
  ~ serializable ctx ->
  let classified := analyze_risk (risk_analyzer self) (now_rules clk) ctx in
  let o :=
    {| timestamp := now_observation clk; user := u; action := a; context := ctx;
       risk_level := fst classified; alert_triggered := true; processed := false |} in
  watch_action clk u a ctx self =
    (Raise (json_error ctx),
     {| observed_actions := observed_actions self;
        database := create_alert (database self) (now_alert clk) o (snd classified);
        risk_analyzer := risk_analyzer self; alert_manager := alert_manager self;
        is_monitoring := is_monitoring self; stats := stats self |}).
Proof.
  intros Hser. cbn zeta. rewrite watch_action_unfold. cbn zeta.
  unfold save_observation, json_dumps. cbn [context].
  by rewrite bool_decide_eq_false_2.
Qed.

Lemma serializable_decide ctx :
  bool_decide (map_Forall (λ _ v, is_Some (encode v)) ctx) = true -> serializable ctx.
Proof. apply bool_decide_eq_true_1. Qed.

(** Three triggered rules or more and a serializable context: CRITICAL, an
    alert, whatever the thresholds of the alert manager. *)
Lemma watch_action_critical clk u a ctx self :
  serializable ctx ->
  (3 <= length (triggered_names (risk_rules (risk_analyzer self)) (now_rules clk) ctx))%nat ->
  exists o self' al,
    watch_action clk u a ctx self = (Ok o, self')
    /\ risk_level o = "CRITICAL" /\ alert_triggered o = true
    /\ alerts (database self') = alerts (database self) ++ [al]
    /\ alert_severity al = "CRITICAL".
Proof.
  intros Hser Hk. rewrite (watch_action_ok _ _ _ _ _ Hser). cbn zeta.
  rewrite analyze_risk_table. cbn [fst snd].
  assert (Hlvl : decision_table
            (length (triggered_names (risk_rules (risk_analyzer self)) (now_rules clk) ctx))
          = "CRITICAL").
  { destruct (triggered_names _ _ _) as [|x [|y [|z l]]]; cbn in Hk; try lia. reflexivity. }
  rewrite Hlvl. eexists _, _, _. split; [reflexivity|]. cbn. repeat split.
Qed.

(** C2, on the context that [submit_observation] builds: four rules trigger,
    the alert of severity CRITICAL is written, then [json.dumps] raises on
    the value of "timestamp" and no observation is returned, stored or
    counted. *)
Theorem watch_action_form_context_raises :
  analyze_risk RiskAnalyzer_init noon form_context =
    ("CRITICAL",
     ["high_amount"; "suspicious_country"; "weekend_activity"; "high_risk_score"])
  /\ fst (watch_action (clock_at noon) "Alice" "flagged_transaction" form_context
            (ObserverAgent_init empty_db)) = Raise TypeError
  /\ database (snd (watch_action (clock_at noon) "Alice" "flagged_transaction"
                      form_context (ObserverAgent_init empty_db))) =
       {| observations := [];
          alerts :=
            [ {| alert_timestamp := noon; alert_user := "Alice";
                 alert_type := "flagged_transaction";
                 alert_message :=
                   "Risk detected for user Alice: high_amount, suspicious_country, weekend_activity, high_risk_score";
                 alert_severity := "CRITICAL"; alert_acknowledged := false |} ] |}
  /\ observed_actions (snd (watch_action (clock_at noon) "Alice" "flagged_transaction"
                              form_context (ObserverAgent_init empty_db))) = []
  /\ stats (snd (watch_action (clock_at noon) "Alice" "flagged_transaction"
                   form_context (ObserverAgent_init empty_db))) = ∅.
Proof. repeat split; by vm_compute. Qed.





Lemma incr_lookup_same key s : incr key s !! key = Some (S (default 0%nat (s !! key))).
Proof. unfold incr. apply lookup_insert_eq. Qed.

Lemma incr_lookup_other key key' s : key <> key' -> incr key s !! key' = s !! key'.
Proof. intros Hne. unfold incr. by apply lookup_insert_ne. Qed.



(** ** The persistence store *)

Lemma save_observation_datetime db o key t :
  context o !! key = Some (VDatetime t) ->
  save_observation db o = Raise (json_error (context o)).
Proof. intros Hk. unfold save_observation. by rewrite (json_dumps_datetime _ key t). Qed.

(** The encoding loses nothing: two values of the model with the same
    document are the same value. *)
Lemma encode_injective v : forall w j, encode v = Some j -> encode w = Some j -> v = w.
Proof.
  intros w j Hv Hw. destruct v, w; cbn in Hv, Hw;
    repeat match goal with
           | H : context [int_str_allowed ?n] |- _ => destruct (int_str_allowed n)
           end; congruence.
Qed.

(** On serializable contexts [save_observation] stores a row from which the
    context can be told: equal stored documents, equal contexts. *)
Lemma save_observation_lossless (c1 c2 : gmap string value) :
  serializable c1 -> serializable c2 -> omap encode c1 = omap encode c2 -> c1 = c2.
Proof.
  intros H1 H2 Heq. apply map_eq. intros k.
  assert (Hk : omap encode c1 !! k = omap encode c2 !! k) by (by rewrite Heq).
  rewrite !lookup_omap in Hk.
  destruct (c1 !! k) as [v1|] eqn:E1, (c2 !! k) as [v2|] eqn:E2; cbn in Hk.
  - destruct (H1 k v1 E1) as [j1 Hj1]. rewrite Hj1 in Hk. symmetry in Hk.
    f_equal. by eapply encode_injective.
  - destruct (H1 k v1 E1) as [j1 Hj1]. congruence.
  - destruct (H2 k v2 E2) as [j2 Hj2]. congruence.
  - reflexivity.
Qed.

(** C9, on the observation that [watch_action] builds from the context of
    [submit_observation]: [save_observation] raises [TypeError] and stores
    nothing, the value of "timestamp" having no JSON encoding. *)
Theorem save_observation_form_context_raises :
  form_context !! "timestamp" = Some (VDatetime noon)
  /\ save_observation empty_db
       {| timestamp := noon; user := "Alice"; action := "flagged_transaction";
          context := form_context; risk_level := "CRITICAL";
          alert_triggered := true; processed := false |} = Raise TypeError.
Proof. split; by vm_compute. Qed.

(** ** The scenario of the flagged transaction *)

(** On the context of the scenario the five rules that read the context give
    weekend_activity and high_risk_score; unusual_time reads the clock. *)
Lemma priya_triggered_names now :
  triggered_names (risk_rules RiskAnalyzer_init) now priya_context =
    ["weekend_activity"; "high_risk_score"]
    ++ (if ((23 <=? hour now)%Z || (hour now <=? 6)%Z)%bool then ["unusual_time"] else []).
Proof.
  unfold triggered_names. cbn [risk_rules RiskAnalyzer_init List.filter snd].
  replace (triggers high_amount now priya_context) with false by (by vm_compute).
  replace (triggers suspicious_country now priya_context) with false by (by vm_compute).
  replace (triggers weekend_activity now priya_context) with true by (by vm_compute).
  replace (triggers high_risk_score now priya_context) with true by (by vm_compute).
  replace (triggers multiple_attempts now priya_context) with false by (by vm_compute).
  replace (triggers unusual_time now priya_context)
    with ((23 <=? hour now)%Z || (hour now <=? 6)%Z)%bool.
  - by destruct ((23 <=? hour now)%Z || (hour now <=? 6)%Z)%bool.
  - unfold triggers, unusual_time, dict_get.
    replace (priya_context !! "timestamp") with (@None value) by (by vm_compute).
    reflexivity.
Qed.

Lemma priya_serializable : serializable priya_context.
Proof. apply serializable_decide. by vm_compute. Qed.

(** C10, counterexample: at 02:00 the call of the scenario triggers three
    rules, unusual_time among them, and the observation and the alert are
    CRITICAL. *)
Lemma watch_action_priya_at_night :
  analyze_risk RiskAnalyzer_init night priya_context =
    ("CRITICAL", ["weekend_activity"; "high_risk_score"; "unusual_time"])
  /\ fst (watch_action (clock_at night) "Priya" "flagged_transaction" priya_context
            (ObserverAgent_init empty_db)) =
       Ok {| timestamp := night; user := "Priya"; action := "flagged_transaction";
             context := priya_context; risk_level := "CRITICAL";
             alert_triggered := true; processed := false |}
  /\ map alert_severity
       (alerts (database (snd (watch_action (clock_at night) "Priya"
                                 "flagged_transaction" priya_context
                                 (ObserverAgent_init empty_db))))) = ["CRITICAL"].
Proof. repeat split; by vm_compute. Qed.

(** C10, amended: when the clock shows an hour from 7 to 22 at the call, the
    call of the scenario triggers exactly weekend_activity and
    high_risk_score, returns an observation of level HIGH with
    [alert_triggered] set, and appends exactly one alert, of severity HIGH. *)
Theorem watch_action_priya clk self :
  risk_analyzer self = RiskAnalyzer_init ->
  (7 <= hour (now_rules clk) <= 22)%Z ->
  analyze_risk (risk_analyzer self) (now_rules clk) priya_context =
    ("HIGH", ["weekend_activity"; "high_risk_score"])
  /\ exists self',
       watch_action clk "Priya" "flagged_transaction" priya_context self =
         (Ok {| timestamp := now_observation clk; user := "Priya";
                action := "flagged_transaction"; context := priya_context;
                risk_level := "HIGH"; alert_triggered := true; processed := false |},
          self')
       /\ alerts (database self') = alerts (database self) ++
            [ {| alert_timestamp := now_alert clk; alert_user := "Priya";
                 alert_type := "flagged_transaction";
                 alert_message :=
                   "Risk detected for user Priya: weekend_activity, high_risk_score";
                 alert_severity := "HIGH"; alert_acknowledged := false |} ].
Proof.
  intros Hcat Hhour.
  assert (Hrisk : analyze_risk (risk_analyzer self) (now_rules clk) priya_context =
                    ("HIGH", ["weekend_activity"; "high_risk_score"])).
  { rewrite Hcat, analyze_risk_table, priya_triggered_names.
    replace ((23 <=? hour (now_rules clk))%Z || (hour (now_rules clk) <=? 6)%Z)%bool
      with false; [reflexivity|].
    symmetry. apply orb_false_iff. split; [apply Z.leb_gt|apply Z.leb_gt]; lia. }
  split; [exact Hrisk|].
  rewrite (watch_action_ok _ _ _ _ _ priya_serializable). cbn zeta. rewrite Hrisk.
  eexists. split; reflexivity.
Qed.

(** The call of the scenario at noon on a new agent. *)
Lemma watch_action_priya_witness :
  analyze_risk (risk_analyzer (ObserverAgent_init empty_db)) (now_rules (clock_at noon))
    priya_context = ("HIGH", ["weekend_activity"; "high_risk_score"])
  /\ exists self',
       watch_action (clock_at noon) "Priya" "flagged_transaction" priya_context
         (ObserverAgent_init empty_db) =
         (Ok {| timestamp := now_observation (clock_at noon); user := "Priya";
                action := "flagged_transaction"; context := priya_context;
                risk_level := "HIGH"; alert_triggered := true; processed := false |},
          self')
       /\ alerts (database self') = alerts (database (ObserverAgent_init empty_db)) ++
            [ {| alert_timestamp := now_alert (clock_at noon); alert_user := "Priya";
                 alert_type := "flagged_transaction";
                 alert_message :=
                   "Risk detected for user Priya: weekend_activity, high_risk_score";
                 alert_severity := "HIGH"; alert_acknowledged := false |} ].
Proof.
  apply (watch_action_priya (clock_at noon) (ObserverAgent_init empty_db)).
  - reflexivity.
  - vm_compute. split; discriminate.
Defined.

(** ** The in-memory list *)

Lemma keep_last_app {A} n (l m : list A) :
  keep_last n (keep_last n l ++ m) = keep_last n (l ++ m).
Proof.
  unfold keep_last. rewrite !length_app, length_skipn.
  rewrite !skipn_app, length_skipn, skipn_skipn.
  f_equal; f_equal; lia.
Qed.

Lemma keep_last_short {A} n (l : list A) : (length l <= n)%nat -> keep_last n l = l.
Proof. intros H. unfold keep_last. by replace (length l - n)%nat with 0%nat by lia. Qed.

Lemma length_keep_last {A} n (l : list A) : (length (keep_last n l) <= n)%nat.
Proof. unfold keep_last. rewrite length_skipn. lia. Qed.

(** The append and the [pop(0)] of [watch_action] keep the last 1000. *)
Lemma append_pop_keep_last (l : list Observation) o :
  (length l <= 1000)%nat ->
  (if (1000 <? length (l ++ [o]))%nat then tl (l ++ [o]) else l ++ [o]) =
    keep_last 1000 (l ++ [o]).
Proof.
  intros Hl. unfold keep_last. rewrite length_app. cbn [length].
  destruct (Nat.ltb_spec 1000 (length l + 1)) as [Hgt|Hle].
  - replace (length l + 1 - 1000)%nat with 1%nat by lia. by destruct (l ++ [o]).
  - by replace (length l + 1 - 1000)%nat with 0%nat by lia.
Qed.

Lemma do_call_bounded c self :
  (length (observed_actions self) <= 1000)%nat ->
  (length (observed_actions (snd (do_call c self))) <= 1000)%nat.
Proof.
  intros Hl. destruct c as [clk u a ctx|now]; cbn [do_call].
  - rewrite watch_action_unfold. cbn zeta.
    destruct (save_observation _ _) as [db2|e]; cbn [snd observed_actions]; [|exact Hl].
    rewrite append_pop_keep_last by exact Hl. apply length_keep_last.
  - cbn. etrans; [apply List.filter_length_le|exact Hl].
Qed.

Lemma run_bounded calls : forall self,
  (length (observed_actions self) <= 1000)%nat ->
  (length (observed_actions (snd (run calls self))) <= 1000)%nat.
Proof.
  induction calls as [|c rest IH]; intros self Hl; [exact Hl|].
  cbn [run]. pose proof (do_call_bounded c self Hl) as Hc.
  destruct (do_call c self) as [r self1]. specialize (IH self1 Hc).
  destruct (run rest self1) as [outs self2]. exact IH.
Qed.

(** A sequence of [watch_action] calls leaves in the list the last 1000 of
    the observations it held and those returned, in the order of insertion. *)
Lemma run_watch_keep_last calls : forall self,
  forallb is_watch calls = true ->
  (length (observed_actions self) <= 1000)%nat ->
  observed_actions (snd (run calls self)) =
    keep_last 1000 (observed_actions self ++ fst (run calls self)).
Proof.
  induction calls as [|c rest IH]; intros self Hw Hl.
  - cbn. rewrite app_nil_r. symmetry. by apply keep_last_short.
  - cbn [forallb] in Hw. apply andb_true_iff in Hw as [Hc Hrest].
    destruct c as [clk u a ctx|now]; [|discriminate]. cbn [run].
    pose proof (do_call_bounded (Watch clk u a ctx) self Hl) as Hb.
    cbn [do_call] in *. rewrite watch_action_unfold in *. cbn zeta in *.
    destruct (save_observation _ _) as [db2|e]; cbn [snd observed_actions] in Hb;
      match goal with
      | |- context [run rest ?s] =>
          specialize (IH s Hrest Hb); destruct (run rest s) as [outs self2]
      end; cbn [fst snd observed_actions] in *; rewrite IH.
    + rewrite append_pop_keep_last by exact Hl.
      by rewrite keep_last_app, <- app_assoc.
    + reflexivity.
Qed.

(** C6: after any sequence of calls on a new agent the list holds at most
    1000 observations; a [watch_action] that returns on a full list drops
    the first entry and appends the new one; after [watch_action] calls only,
    the list is the last 1000 observations returned, so that 1001 of them
    leave the 1000 after the first. *)
Theorem observed_actions_capped (db : Database) (calls : list call)
    (clk : Clock) (u a : string) (ctx : gmap string value)
    (self : ObserverAgent) (o : Observation) :
  (length (observed_actions (snd (run calls (ObserverAgent_init db)))) <= max_observed)%nat
  /\ (length (observed_actions self) = max_observed ->
      fst (watch_action clk u a ctx self) = Ok o ->
      observed_actions (snd (watch_action clk u a ctx self)) =
        tl (observed_actions self) ++ [o])
  /\ (forallb is_watch calls = true ->
      observed_actions (snd (run calls (ObserverAgent_init db))) =
        keep_last max_observed (fst (run calls (ObserverAgent_init db))))
  /\ (forallb is_watch calls = true ->
      length (fst (run calls (ObserverAgent_init db))) = S max_observed ->
      length (observed_actions (snd (run calls (ObserverAgent_init db)))) = max_observed
      /\ observed_actions (snd (run calls (ObserverAgent_init db))) =
         tl (fst (run calls (ObserverAgent_init db)))).
Proof.
  unfold max_observed.
  assert (Hlast : forallb is_watch calls = true ->
                  observed_actions (snd (run calls (ObserverAgent_init db))) =
                    keep_last 1000 (fst (run calls (ObserverAgent_init db)))).
  { intros Hw. rewrite run_watch_keep_last; [reflexivity|exact Hw|cbn; lia]. }
  split; [|split; [|split]].
  - apply run_bounded. cbn. lia.
  - intros Hfull. rewrite watch_action_unfold. cbn zeta.
    destruct (save_observation _ _) as [db2|e]; [|discriminate].
    cbn [fst snd observed_actions]. intros Ho. injection Ho as Ho. rewrite Ho.
    replace (1000 <? length (observed_actions self ++ [o]))%nat with true.
    + by destruct (observed_actions self).
    + symmetry. apply Nat.ltb_lt. rewrite length_app. cbn. lia.
  - exact Hlast.
  - intros Hw Hlen. rewrite (Hlast Hw). unfold keep_last. rewrite Hlen.
    replace (1001 - 1000)%nat with 1%nat by lia. split.
    + rewrite length_skipn. lia.
    + by destruct (fst (run calls (ObserverAgent_init db))).
Qed.

(** 1000 calls of the scenario then one more call, and 1001 calls of the
    scenario, on a new agent. *)
Lemma observed_actions_capped_witness :
  observed_actions
    (snd (watch_action (clock_at noon) "Bob" "login_attempt" bob_context
            (snd (run (priya_calls 1000) (ObserverAgent_init empty_db))))) =
    tl (observed_actions (snd (run (priya_calls 1000) (ObserverAgent_init empty_db))))
    ++ [ {| timestamp := noon; user := "Bob"; action := "login_attempt";
            context := bob_context; risk_level := "LOW";
            alert_triggered := true; processed := false |} ]
  /\ observed_actions (snd (run (priya_calls 1001) (ObserverAgent_init empty_db))) =
       keep_last max_observed (fst (run (priya_calls 1001) (ObserverAgent_init empty_db)))
  /\ length (observed_actions (snd (run (priya_calls 1001) (ObserverAgent_init empty_db))))
       = max_observed
  /\ observed_actions (snd (run (priya_calls 1001) (ObserverAgent_init empty_db))) =
       tl (fst (run (priya_calls 1001) (ObserverAgent_init empty_db))).
Proof.
  destruct (observed_actions_capped empty_db (priya_calls 1001)
              (clock_at noon) "Bob" "login_attempt" bob_context
              (snd (run (priya_calls 1000) (ObserverAgent_init empty_db)))
              {| timestamp := noon; user := "Bob"; action := "login_attempt";
                 context := bob_context; risk_level := "LOW";
                 alert_triggered := true; processed := false |})
    as (_ & Hstep & Hlast & Hfifo).
  split; [|split].
  - apply Hstep; vm_compute; reflexivity.
  - apply Hlast. vm_compute. reflexivity.
  - apply Hfifo; vm_compute; reflexivity.
Defined.

(** ** The sweep *)

Lemma filter_within_horizon now (l : list Observation) :
  List.filter (fun obs => datetime_ge (timestamp obs) (minus_days now 7)) l =
    filter (within_horizon now) l.
Proof.
  induction l as [|o l IH]; [reflexivity|].
  cbn [List.filter]. rewrite filter_cons, IH.
  unfold datetime_ge, minus_days, within_horizon, horizon_days. cbn [micros].
  destruct (Z.leb_spec (micros now - 7 * micros_per_day) (micros (timestamp o)));
    destruct (decide _); try reflexivity; lia.
Qed.

(** C7: one run of the sweep leaves in the list the observations of the last
    7 days, those and no other, in their order, and changes nothing else:
    the database, the statistics and the other fields are the same. *)
Theorem cleanup_keeps_recent (now : datetime) (self : ObserverAgent) :
  fst (_cleanup_old_observations now self) = Ok tt
  /\ observed_actions (snd (_cleanup_old_observations now self)) =
       filter (within_horizon now) (observed_actions self)
  /\ (forall o, In o (observed_actions (snd (_cleanup_old_observations now self))) <->
                In o (observed_actions self) /\ within_horizon now o)
  /\ sublist (observed_actions (snd (_cleanup_old_observations now self)))
       (observed_actions self)
  /\ database (snd (_cleanup_old_observations now self)) = database self
  /\ stats (snd (_cleanup_old_observations now self)) = stats self
  /\ alert_manager (snd (_cleanup_old_observations now self)) = alert_manager self
  /\ risk_analyzer (snd (_cleanup_old_observations now self)) = risk_analyzer self
  /\ is_monitoring (snd (_cleanup_old_observations now self)) = is_monitoring self.
Proof.
  unfold _cleanup_old_observations, bind, get_self, set_observed_actions.
  cbn [fst snd observed_actions database stats alert_manager risk_analyzer is_monitoring].
  rewrite filter_within_horizon. repeat split.
  - rewrite <- list_elem_of_In, list_elem_of_filter, list_elem_of_In in H. tauto.
  - rewrite <- list_elem_of_In, list_elem_of_filter, list_elem_of_In in H. tauto.
  - intros [Hin Hw]. rewrite <- list_elem_of_In, list_elem_of_filter, list_elem_of_In. tauto.
  - apply sublist_filter.
Qed.

(** ** The rules of the catalog *)

Lemma lower_ascii_idempotent c : lower_ascii (lower_ascii c) = lower_ascii c.
Proof. destruct c as [[] [] [] [] [] [] [] []]; reflexivity. Qed.

Lemma lower_idempotent s : lower (lower s) = lower s.
Proof. induction s as [|c s IH]; cbn; [reflexivity|]. by rewrite lower_ascii_idempotent, IH. Qed.

(** The thresholds of the numeric rules are strict, and an integer is
    compared exactly with the float 0.8: an integer amount triggers
    high_amount when it is above 10000, an integer attempt count triggers
    multiple_attempts when it is above 3, an integer risk score triggers
    high_risk_score when it is at least 1; NaN triggers none of them. *)
Theorem numeric_rules_thresholds (now : datetime) (ctx : gmap string value) (n : Z) :
  triggers high_amount now (<["amount" := VInt n]> ctx) = (10000 <? n)%Z
  /\ triggers multiple_attempts now (<["attempt_count" := VInt n]> ctx) = (3 <? n)%Z
  /\ triggers high_risk_score now (<["risk_score" := VInt n]> ctx) = (0 <? n)%Z
  /\ triggers high_amount now (<["amount" := VFloat FNaN]> ctx) = false
  /\ triggers multiple_attempts now (<["attempt_count" := VFloat FNaN]> ctx) = false
  /\ triggers high_risk_score now (<["risk_score" := VFloat FNaN]> ctx) = false.
Proof.
  unfold triggers, high_amount, multiple_attempts, high_risk_score, dict_get, gt_const.
  rewrite !lookup_insert_eq. cbn. unfold Qgtb. cbn.
  repeat split.
  - f_equal; lia.
  - f_equal; lia.
  - destruct (Z.ltb_spec 0 n); [apply Z.ltb_lt|apply Z.ltb_ge]; lia.
Qed.

(** suspicious_country does not look at the case of the country: a country
    and its lower-case form get the same answer. *)
Theorem suspicious_country_ignores_case (now : datetime) (ctx : gmap string value)
    (country : string) :
  suspicious_country now (<["country" := VStr country]> ctx) =
  suspicious_country now (<["country" := VStr (lower country)]> ctx)
  /\ (triggers suspicious_country now (<["country" := VStr country]> ctx) = true <->
      In (lower country) ["nigeria"; "somalia"; "afghanistan"]).
Proof.
  unfold triggers, suspicious_country, dict_get. rewrite !lookup_insert_eq.
  cbn [default id truthy]. rewrite lower_idempotent. split; [reflexivity|].
  unfold str_in. rewrite existsb_exists. split.
  - intros (x & Hin & Heq). apply String.eqb_eq in Heq. by subst.
  - intros Hin. exists (lower country). split; [exact Hin|apply String.eqb_refl].
Qed.

(** The window of unusual_time on the time of day of the "timestamp" of the
    context: from 23:00:00 to 06:59:59.999999, the whole hour of 6 included. *)
Theorem unusual_time_window (now : datetime) (ctx : gmap string value) (t : datetime) :
  triggers unusual_time now (<["timestamp" := VDatetime t]> ctx) = true <->
  (micros t mod micros_per_day < 7 * micros_per_hour
   \/ 23 * micros_per_hour <= micros t mod micros_per_day)%Z.
Proof.
  unfold triggers, unusual_time, dict_get. rewrite lookup_insert_eq.
  cbn [default id _is_unusual_time truthy]. unfold hour, micros_per_day.
  rewrite (Z.mul_comm 24), Z.rem_mul_r by (unfold micros_per_hour; lia).
  pose proof (Z.mod_pos_bound (micros t) micros_per_hour ltac:(unfold micros_per_hour; lia)) as Hr.
  pose proof (Z.mod_pos_bound (micros t / micros_per_hour) 24 ltac:(lia)) as Hh.
  unfold micros_per_hour in *.
  rewrite orb_true_iff, !Z.leb_le. lia.
Qed.

(** A rule whose key is absent from the context works on its default and
    does not trigger: without the five keys only unusual_time can trigger,
    and the level is LOW or MEDIUM. *)
Theorem absent_keys_do_not_trigger (now : datetime) (ctx : gmap string value) :
  ctx !! "amount" = None -> ctx !! "country" = None -> ctx !! "is_weekend" = None ->
  ctx !! "risk_score" = None -> ctx !! "attempt_count" = None ->
  (analyze_risk RiskAnalyzer_init now ctx = ("LOW", [])
   \/ analyze_risk RiskAnalyzer_init now ctx = ("MEDIUM", ["unusual_time"])).
Proof.
  intros Ha Hc Hw Hr Hn. rewrite analyze_risk_table.
  assert (H1 : triggers high_amount now ctx = false)
    by (unfold triggers, high_amount, dict_get; by rewrite Ha).
  assert (H2 : triggers suspicious_country now ctx = false)
    by (unfold triggers, suspicious_country, dict_get; by rewrite Hc).
  assert (H3 : triggers weekend_activity now ctx = false)
    by (unfold triggers, weekend_activity, dict_get; by rewrite Hw).
  assert (H4 : triggers high_risk_score now ctx = false)
    by (unfold triggers, high_risk_score, dict_get; by rewrite Hr).
  assert (H5 : triggers multiple_attempts now ctx = false)
    by (unfold triggers, multiple_attempts, dict_get; by rewrite Hn).
  unfold triggered_names. cbn [risk_rules RiskAnalyzer_init List.filter snd].
  rewrite H1, H2, H3, H4, H5.
  destruct (triggers unusual_time now ctx); cbn; auto.
Qed.

Lemma absent_keys_do_not_trigger_witness :
  analyze_risk RiskAnalyzer_init night stamped_context = ("LOW", [])
  \/ analyze_risk RiskAnalyzer_init night stamped_context = ("MEDIUM", ["unusual_time"]).
Proof.
  apply (absent_keys_do_not_trigger night stamped_context); vm_compute; reflexivity.
Defined.

Lemma filter_sublist_map {A B} (f : A -> B) (p : A -> bool) (l : list A) :
  sublist (map f (List.filter p l)) (map f l).
Proof.
  induction l as [|x l IH]; cbn; [constructor|].
  destruct (p x); cbn; by constructor.
Qed.

(** Whatever the catalog, the level returned is one of the four levels and
    the names returned are names of the catalog, each at most as often as
    in the catalog and in its order. *)
Theorem analyze_risk_range (self : RiskAnalyzer) (now : datetime)
    (ctx : gmap string value) :
  In (fst (analyze_risk self now ctx)) risk_levels
  /\ sublist (snd (analyze_risk self now ctx)) (map fst (risk_rules self))
  /\ (length (snd (analyze_risk self now ctx)) <= length (risk_rules self))%nat.
Proof.
  rewrite analyze_risk_table. cbn [fst snd]. split; [|split].
  - destruct (length _) as [|[|[|k]]]; cbn; auto.
  - apply filter_sublist_map.
  - unfold triggered_names. rewrite length_map. apply List.filter_length_le.
Qed.

(** ** What a call of the engine does to the state *)

Lemma decision_table_level k : In (decision_table k) risk_levels.
Proof. destruct k as [|[|[|k]]]; cbn; auto. Qed.


Lemma save_observation_ok_inv db o db' :
  save_observation db o = Ok db' ->
  serializable (context o)
  /\ db' = {| observations := observations db ++ [row_of o (omap encode (context o))];
             alerts := alerts db |}.
Proof.
  unfold save_observation, json_dumps. case_bool_decide as Hser; [|discriminate].
  intros Heq. injection Heq as <-. split; [exact Hser|reflexivity].
Qed.

Lemma save_observation_raise_inv db o e :
  save_observation db o = Raise e ->
  ~ serializable (context o) /\ e = json_error (context o).
Proof.
  unfold save_observation, json_dumps. case_bool_decide as Hser; [discriminate|].
  intros Heq. injection Heq as <-. split; [exact Hser|reflexivity].
Qed.

(** The thresholds of the alert manager change nothing: with any other
    table of thresholds [watch_action] returns the same result, and leaves
    the same database, list and statistics. *)
Theorem watch_action_ignores_thresholds (clk : Clock) (u a : string)
    (ctx : gmap string value) (self : ObserverAgent) (thresholds : gmap string Z) :
  let other :=
    {| observed_actions := observed_actions self; database := database self;
       risk_analyzer := risk_analyzer self;
       alert_manager := {| alert_thresholds := thresholds |};
       is_monitoring := is_monitoring self; stats := stats self |} in
  fst (watch_action clk u a ctx other) = fst (watch_action clk u a ctx self)
  /\ database (snd (watch_action clk u a ctx other)) =
     database (snd (watch_action clk u a ctx self))
  /\ observed_actions (snd (watch_action clk u a ctx other)) =
     observed_actions (snd (watch_action clk u a ctx self))
  /\ stats (snd (watch_action clk u a ctx other)) =
     stats (snd (watch_action clk u a ctx self)).
Proof.
  cbn zeta. rewrite !watch_action_unfold. cbn zeta.
  cbn [observed_actions database risk_analyzer stats].
  destruct (save_observation _ _); repeat split.
Qed.

(** [int_str_allowed] is the bound on the number of digits. *)
Lemma int_str_allowed_spec n :
  int_str_allowed n = true <-> (Z.abs n < 10 ^ int_max_str_digits)%Z.
Proof.
  unfold int_str_allowed.
  destruct (Z.ltb_spec (Z.log2 (Z.abs n)) 10750) as [Hlog|Hlog]; [|apply Z.ltb_lt].
  split; [intros _|reflexivity].
  apply Z.lt_le_trans with (2 ^ 10750)%Z.
  2:{ unfold int_max_str_digits.
      change 10750%Z with (10 * 1075)%Z. change 4300%Z with (4 * 1075)%Z.
      rewrite !Z.pow_mul_r by lia. apply Z.pow_le_mono_l. lia. }
  destruct (Z.eq_dec (Z.abs n) 0%Z) as [->|Hnz].
  - by apply Z.pow_pos_nonneg.
  - apply Z.log2_lt_pow2; [|exact Hlog]. pose proof (Z.abs_nonneg n). lia.
Qed.

Lemma encode_none v : encode v = None <-> is_long_int v = true \/ is_datetime v = true.
Proof.
  destruct v; cbn; try destruct (int_str_allowed n); cbn;
    split; intros H; try discriminate; auto; by destruct H.
Qed.

Lemma some_value_spec p ctx :
  some_value p ctx = true <-> exists key v, ctx !! key = Some v /\ p v = true.
Proof.
  unfold some_value. rewrite existsb_exists. split.
  - intros ([k v] & Hin & Hp). exists k, v. split; [|exact Hp].
    by apply elem_of_map_to_list, list_elem_of_In.
  - intros (k & v & Hk & Hp). exists (k, v). split; [|exact Hp].
    by apply list_elem_of_In, elem_of_map_to_list.
Qed.


(** A dict that is not serializable has a value without encoding. *)
Lemma not_serializable_value ctx :
  ~ serializable ctx ->
  some_value is_long_int ctx = true \/ some_value is_datetime ctx = true.
Proof.
  intros Hser. apply map_not_Forall in Hser as (k & v & Hk & Hv); [|apply _].
  assert (Hnone : encode v = None) by (destruct (encode v); [destruct Hv; eauto|reflexivity]).
  apply encode_none in Hnone as [Hl|Hd]; [left|right]; apply some_value_spec; eauto.
Qed.

(** The exception of [json.dumps] when no int of the dict is too long. *)
Lemma json_error_datetime ctx :
  (forall key n, ctx !! key = Some (VInt n) -> int_str_allowed n = true) ->
  json_error ctx = TypeError.
Proof.
  intros Hall. unfold json_error.
  destruct (some_value is_long_int ctx) eqn:Hl; [|reflexivity].
  apply some_value_spec in Hl as (k & v & Hk & Hv).
  destruct v; try discriminate. cbn in Hv. by rewrite (Hall k n Hk) in Hv.
Qed.

(** The exception of [json.dumps] when no value of the dict is a datetime. *)
Lemma json_error_long_int ctx :
  ~ serializable ctx ->
  (forall key t, ctx !! key <> Some (VDatetime t)) ->
  json_error ctx = ValueError.
Proof.
  intros Hser Hall.
  assert (Hd : some_value is_datetime ctx = false).
  { destruct (some_value is_datetime ctx) eqn:Hd; [|reflexivity].
    apply some_value_spec in Hd as (k & v & Hk & Hv).
    destruct v; try discriminate. by destruct (Hall k t). }
  unfold json_error. rewrite Hd.
  destruct (not_serializable_value ctx Hser) as [->|Hd']; [reflexivity|congruence].
Qed.

(** The bound at its edge: an int of 4300 digits is written, one of 4301
    digits is not. *)
Lemma int_str_allowed_edge :
  int_str_allowed (10 ^ int_max_str_digits - 1) = true
  /\ int_str_allowed (- (10 ^ int_max_str_digits - 1)) = true
  /\ int_str_allowed (10 ^ int_max_str_digits) = false
  /\ int_str_allowed (- 10 ^ int_max_str_digits) = false.
Proof.
  assert (Hpos : (0 < 10 ^ int_max_str_digits)%Z) by (by apply Z.pow_pos_nonneg).
  assert (Hno : forall n, (10 ^ int_max_str_digits <= Z.abs n)%Z ->
                          int_str_allowed n = false).
  { intros n Hn. destruct (int_str_allowed n) eqn:E; [|reflexivity].
    apply int_str_allowed_spec in E. lia. }
  split; [|split; [|split]].
  - apply int_str_allowed_spec. remember (10 ^ int_max_str_digits)%Z as bound. lia.
  - apply int_str_allowed_spec. remember (10 ^ int_max_str_digits)%Z as bound. lia.
  - apply Hno. remember (10 ^ int_max_str_digits)%Z as bound. lia.
  - apply Hno. remember (10 ^ int_max_str_digits)%Z as bound. lia.
Qed.

(** A context with an int of more than 4300 digits under "amount": the
    alert is written, then [json.dumps] raises [ValueError] on the long int
    and nothing is returned, stored, listed or counted. *)
Lemma watch_action_long_int_raises clk u a (n : Z) self :
  (10 ^ int_max_str_digits <= Z.abs n)%Z ->
  ~ serializable (<["amount" := VInt n]> ∅)
  /\ fst (watch_action clk u a (<["amount" := VInt n]> ∅) self) = Raise ValueError
  /\ observations (database (snd (watch_action clk u a (<["amount" := VInt n]> ∅) self)))
     = observations (database self)
  /\ length (alerts (database (snd (watch_action clk u a (<["amount" := VInt n]> ∅) self))))
     = S (length (alerts (database self)))
  /\ observed_actions (snd (watch_action clk u a (<["amount" := VInt n]> ∅) self))
     = observed_actions self
  /\ stats (snd (watch_action clk u a (<["amount" := VInt n]> ∅) self)) = stats self.
Proof.
  intros Hn.
  assert (Hno : int_str_allowed n = false).
  { destruct (int_str_allowed n) eqn:E; [|reflexivity].
    apply int_str_allowed_spec in E. lia. }
  assert (Hser : ~ serializable (<["amount" := VInt n]> (∅ : gmap string value))).
  { intros H. destruct (H "amount" (VInt n) (lookup_insert_eq _ _ _)) as [j Hj].
    unfold encode in Hj. rewrite Hno in Hj. discriminate. }
  assert (Herr : json_error (<["amount" := VInt n]> ∅) = ValueError).
  { apply json_error_long_int; [exact Hser|]. intros k t Hk.
    apply lookup_insert_Some in Hk as [[_ Heq]|[_ Hk]]; [discriminate|].
    by rewrite lookup_empty in Hk. }
  split; [exact Hser|].
  rewrite (watch_action_raise _ _ _ _ _ Hser), Herr.
  cbn [fst snd database observations alerts create_alert observed_actions stats].
  rewrite length_app. cbn [length]. repeat split. lia.
Qed.



(** One call: the rows and alerts it appends. *)
Lemma do_call_database c self :
  observations (database (snd (do_call c self))) =
    observations (database self) ++
      match fst (do_call c self) with
      | Some o => [row_of o (omap encode (context o))]
      | None => []
      end
  /\ length (alerts (database (snd (do_call c self)))) =
     (length (alerts (database self)) + (if is_watch c then 1 else 0))%nat.
Proof.
  destruct c as [clk u a ctx|now]; cbn [do_call is_watch].
  - rewrite watch_action_unfold. cbn zeta.
    destruct (save_observation _ _) as [db2|e] eqn:Hsave; cbn [fst snd database].
    + apply save_observation_ok_inv in Hsave as [_ ->].
      cbn [observations alerts create_alert context]. split; [reflexivity|].
      by rewrite length_app.
    + cbn [create_alert observations alerts]. rewrite app_nil_r, length_app. done.
  - cbn. rewrite app_nil_r. split; [reflexivity|lia].
Qed.


(** ** The statistics *)

Lemma stat_incr key key' s :
  default 0%nat (incr key s !! key') =
    ((if String.eqb key key' then 1 else 0) + default 0%nat (s !! key'))%nat.
Proof.
  destruct (String.eqb_spec key key') as [->|Hne].
  - by rewrite incr_lookup_same.
  - by rewrite incr_lookup_other.
Qed.

(** The sum of the four counters of levels. *)
Lemma do_call_stats c self :
  let n := match fst (do_call c self) with Some _ => 1%nat | None => 0%nat end in
  stat "total_observations" (snd (do_call c self)) = (stat "total_observations" self + n)%nat
  /\ stat "total_alerts" (snd (do_call c self)) = (stat "total_alerts" self + n)%nat
  /\ (stat "risk_low" (snd (do_call c self)) + stat "risk_medium" (snd (do_call c self))
      + stat "risk_high" (snd (do_call c self)) + stat "risk_critical" (snd (do_call c self))
      = stat "risk_low" self + stat "risk_medium" self + stat "risk_high" self
        + stat "risk_critical" self + n)%nat.
Proof.
  destruct c as [clk u a ctx|now]; cbn [do_call].
  - rewrite watch_action_unfold. cbn zeta.
    destruct (save_observation _ _) as [db2|e]; cbn [fst snd]; unfold stat; cbn [stats];
      [|repeat split; lia].
    rewrite analyze_risk_table. cbn [fst].
    rewrite !stat_incr.
    destruct (length _) as [|[|[|k]]];
      repeat match goal with
             | |- context [String.eqb ?x ?y] =>
                 let v := eval vm_compute in (String.eqb x y) in
                 change (String.eqb x y) with v
             end; cbn; repeat split; lia.
  - cbn. unfold stat. cbn. repeat split; lia.
Qed.

(** Over a sequence of calls the counters total_observations and
    total_alerts both grow by the number of observations returned, and so
    does the sum of the four counters of levels: the three stay equal on an
    agent that starts with empty statistics. *)
Theorem run_stats (calls : list call) (self : ObserverAgent) :
  stat "total_observations" (snd (run calls self)) =
    (stat "total_observations" self + length (fst (run calls self)))%nat
  /\ stat "total_alerts" (snd (run calls self)) =
     (stat "total_alerts" self + length (fst (run calls self)))%nat
  /\ (stat "risk_low" (snd (run calls self)) + stat "risk_medium" (snd (run calls self))
      + stat "risk_high" (snd (run calls self)) + stat "risk_critical" (snd (run calls self))
      = stat "risk_low" self + stat "risk_medium" self + stat "risk_high" self
        + stat "risk_critical" self + length (fst (run calls self)))%nat.
Proof.
  revert self. induction calls as [|c rest IH]; intros self.
  - cbn. repeat split; lia.
  - cbn [run]. destruct (do_call_stats c self) as (H1 & H2 & H3). cbn zeta in *.
    destruct (do_call c self) as [r self1]. cbn [fst snd] in *.
    destruct (IH self1) as (I1 & I2 & I3).
    destruct (run rest self1) as [outs self2]. cbn [fst snd] in *.
    rewrite I1, I2, I3, H1, H2, H3. destruct r; cbn [length]; repeat split; lia.
Qed.

(** ** What the in-memory list holds *)

Lemma do_call_returned c self o :
  fst (do_call c self) = Some o ->
  alert_triggered o = true /\ processed o = false
  /\ serializable (context o) /\ In (risk_level o) risk_levels.
Proof.
  destruct c as [clk u a ctx|now]; cbn [do_call]; [|discriminate].
  rewrite watch_action_unfold. cbn zeta.
  destruct (save_observation _ _) as [db2|e] eqn:Hsave; cbn [fst]; [|discriminate].
  intros Ho. injection Ho as <-. apply save_observation_ok_inv in Hsave as [Hser _].
  cbn [alert_triggered processed context risk_level] in *.
  repeat split; [exact Hser|]. rewrite analyze_risk_table. apply decision_table_level.
Qed.

Lemma in_tl {A} (x : A) l : In x (tl l) -> In x l.
Proof. destruct l; cbn; auto. Qed.

Lemma do_call_cache c self o :
  In o (observed_actions (snd (do_call c self))) ->
  In o (observed_actions self) \/ fst (do_call c self) = Some o.
Proof.
  destruct c as [clk u a ctx|now]; cbn [do_call].
  - rewrite watch_action_unfold. cbn zeta.
    destruct (save_observation _ _) as [db2|e]; cbn [fst snd observed_actions]; [|auto].
    intros Hin.
    assert (Hin' : In o (observed_actions self ++
              [{| timestamp := now_observation clk; user := u; action := a;
                  context := ctx;
                  risk_level :=
                    fst (analyze_risk (risk_analyzer self) (now_rules clk) ctx);
                  alert_triggered := true; processed := false |}]))
      by (destruct (1000 <? _)%nat; [by apply in_tl|exact Hin]).
    apply in_app_iff in Hin' as [Hin'|[<-|[]]]; auto.
  - cbn. intros Hin. apply filter_In in Hin as [Hin _]. auto.
Qed.

Lemma run_rows_kept calls : forall self row,
  In row (observations (database self)) ->
  In row (observations (database (snd (run calls self)))).
Proof.
  induction calls as [|c rest IH]; intros self row Hin; [exact Hin|].
  cbn [run]. destruct (do_call_database c self) as [Hobs _].
  destruct (do_call c self) as [r self1]. cbn [fst snd] in Hobs.
  specialize (IH self1 row). destruct (run rest self1) as [outs self2].
  cbn [snd] in *. apply IH. rewrite Hobs. apply in_app_iff. by left.
Qed.

Lemma run_cache calls : forall self o,
  In o (observed_actions (snd (run calls self))) ->
  In o (observed_actions self) \/ In o (fst (run calls self)).
Proof.
  induction calls as [|c rest IH]; intros self o; [cbn; auto|].
  cbn [run]. pose proof (do_call_cache c self o) as Hc.
  destruct (do_call c self) as [r self1]. cbn [fst snd] in Hc.
  specialize (IH self1 o). destruct (run rest self1) as [outs self2].
  cbn [fst snd] in *. intros Hin. destruct (IH Hin) as [H1|H2].
  - destruct (Hc H1) as [H|H]; [auto|]. subst r. right. by left.
  - right. destruct r; [by right|exact H2].
Qed.

Lemma run_returned calls : forall self o,
  In o (fst (run calls self)) ->
  alert_triggered o = true /\ processed o = false
  /\ serializable (context o) /\ In (risk_level o) risk_levels.
Proof.
  induction calls as [|c rest IH]; intros self o; [cbn; tauto|].
  cbn [run]. pose proof (do_call_returned c self) as Hc.
  destruct (do_call c self) as [r self1]. cbn [fst] in Hc.
  specialize (IH self1 o). destruct (run rest self1) as [outs self2].
  cbn [fst] in *. destruct r as [o'|]; [|exact IH].
  intros [<-|Hin]; [by apply Hc|by apply IH].
Qed.

Lemma run_rows_in calls : forall self o,
  In o (fst (run calls self)) ->
  In (row_of o (omap encode (context o))) (observations (database (snd (run calls self)))).
Proof.
  induction calls as [|c rest IH]; intros self o; [cbn; tauto|].
  cbn [run]. destruct (do_call_database c self) as [Hobs _].
  destruct (do_call c self) as [r self1]. cbn [fst snd] in Hobs.
  pose proof (IH self1 o) as IHo. pose proof (run_rows_kept rest self1) as Hkept.
  destruct (run rest self1) as [outs self2]. cbn [fst snd] in *.
  destruct r as [o'|]; [|exact IHo].
  intros [<-|Hin]; [|by apply IHo].
  apply Hkept. rewrite Hobs. apply in_app_iff. right. by left.
Qed.

(** After any sequence of calls on a new agent, every observation of the
    in-memory list is one that a [watch_action] of the sequence returned,
    and the table of observations holds the row written for it: a row with
    its timestamp, user, action and level, and the alert flag set.  It has
    [alert_triggered] set and one of the four levels. *)
Theorem observed_actions_persisted (db : Database) (calls : list call) (o : Observation) :
  In o (observed_actions (snd (run calls (ObserverAgent_init db)))) ->
  In o (fst (run calls (ObserverAgent_init db)))
  /\ (exists row,
        In row (observations (database (snd (run calls (ObserverAgent_init db)))))
        /\ row_timestamp row = timestamp o /\ row_user row = user o
        /\ row_action row = action o /\ row_risk_level row = risk_level o
        /\ row_alert_triggered row = true)
  /\ alert_triggered o = true
  /\ In (risk_level o) risk_levels.
Proof.
  intros Hin. apply run_cache in Hin as [[]|Hout].
  destruct (run_returned _ _ _ Hout) as (Ha & _ & _ & Hlvl).
  repeat split; try assumption.
  exists (row_of o (omap encode (context o))). split; [apply (run_rows_in _ _ _ Hout)|].
  cbn. by rewrite Ha.
Qed.

(** Two calls of the scenario on a new agent; the observation of the second. *)
Lemma observed_actions_persisted_witness :
  In (priya_observation 1) (fst (run (priya_calls 2) (ObserverAgent_init empty_db)))
  /\ (exists row,
        In row (observations
                  (database (snd (run (priya_calls 2) (ObserverAgent_init empty_db)))))
        /\ row_timestamp row = timestamp (priya_observation 1)
        /\ row_user row = user (priya_observation 1)
        /\ row_action row = action (priya_observation 1)
        /\ row_risk_level row = risk_level (priya_observation 1)
        /\ row_alert_triggered row = true)
  /\ alert_triggered (priya_observation 1) = true
  /\ In (risk_level (priya_observation 1)) risk_levels.
Proof.
  apply (observed_actions_persisted empty_db (priya_calls 2) (priya_observation 1)).
  vm_compute. right. left. reflexivity.
Defined.

(** ** Queries on the list *)

Lemma filter_user_app who (l : list Observation) o :
  List.filter (fun obs => String.eqb (user obs) who) (l ++ [o]) =
    List.filter (fun obs => String.eqb (user obs) who) l
    ++ (if String.eqb (user o) who then [o] else []).
Proof. rewrite List.filter_app. reflexivity. Qed.

(** After a [watch_action] that returns, the activity of its user ends with
    the observation returned, and the activity of any other user is what it
    was, or what it was without its first entry (the one that left the full
    list). *)
Theorem get_user_activity_after_watch (clk : Clock) (u a : string)
    (ctx : gmap string value) (self : ObserverAgent) (o : Observation) (other : string) :
  fst (watch_action clk u a ctx self) = Ok o ->
  other <> u ->
  last (get_user_activity u (snd (watch_action clk u a ctx self))) = Some o
  /\ (get_user_activity other (snd (watch_action clk u a ctx self)) =
        get_user_activity other self
      \/ get_user_activity other (snd (watch_action clk u a ctx self)) =
           tl (get_user_activity other self)).
Proof.
  rewrite watch_action_unfold. cbn zeta.
  destruct (save_observation _ _) as [db2|e]; [|discriminate].
  cbn [fst snd]. intros Ho Hother. injection Ho as Ho. rewrite Ho.
  assert (Hu : user o = u) by (by rewrite <- Ho).
  unfold get_user_activity. cbn [observed_actions].
  assert (Hsame : String.eqb (user o) u = true) by (by apply String.eqb_eq).
  assert (Hdiff : String.eqb (user o) other = false)
    by (apply String.eqb_neq; congruence).
  destruct (observed_actions self) as [|x l] eqn:Hcache.
  - cbn. rewrite Hsame, Hdiff. cbn. auto.
  - destruct (1000 <? _)%nat; cbn [app tl].
    + rewrite !filter_user_app, Hsame, Hdiff, app_nil_r. split; [apply last_snoc|].
      cbn [List.filter]. destruct (String.eqb (user x) other); cbn; auto.
    + rewrite app_comm_cons, !filter_user_app, Hsame, Hdiff, app_nil_r.
      split; [apply last_snoc|auto].
Qed.

Lemma get_user_activity_after_watch_witness :
  last (get_user_activity "Priya"
          (snd (watch_action (clock_at noon) "Priya" "flagged_transaction" priya_context
                  (ObserverAgent_init empty_db)))) = Some (priya_observation 0)
  /\ (get_user_activity "Bob"
        (snd (watch_action (clock_at noon) "Priya" "flagged_transaction" priya_context
                (ObserverAgent_init empty_db))) =
        get_user_activity "Bob" (ObserverAgent_init empty_db)
      \/ get_user_activity "Bob"
           (snd (watch_action (clock_at noon) "Priya" "flagged_transaction" priya_context
                   (ObserverAgent_init empty_db))) =
           tl (get_user_activity "Bob" (ObserverAgent_init empty_db))).
Proof.
  apply (get_user_activity_after_watch (clock_at noon) "Priya" "flagged_transaction"
           priya_context (ObserverAgent_init empty_db) (priya_observation 0) "Bob").
  - vm_compute. reflexivity.
  - discriminate.
Defined.

(** ** Sweeps *)

Lemma filter_filter_bool {A} (p q : A -> bool) (l : list A) :
  List.filter q (List.filter p l) = List.filter (fun x => p x && q x) l.
Proof.
  induction l as [|x l IH]; [reflexivity|].
  cbn. destruct (p x); cbn; [destruct (q x)|]; by rewrite IH.
Qed.

(** Sweeps compose: a sweep after an earlier sweep leaves the state that
    the later sweep alone leaves; in particular a sweep repeated at the same
    time changes nothing more. *)
Theorem cleanup_after_cleanup (now1 now2 : datetime) (self : ObserverAgent) :
  (micros now1 <= micros now2)%Z ->
  snd (_cleanup_old_observations now2 (snd (_cleanup_old_observations now1 self))) =
  snd (_cleanup_old_observations now2 self).
Proof.
  intros Hle. unfold _cleanup_old_observations, bind, get_self, set_observed_actions.
  cbn [fst snd observed_actions database stats alert_manager risk_analyzer is_monitoring].
  f_equal. rewrite filter_filter_bool.
  apply List.filter_ext. intros o. unfold datetime_ge, minus_days. cbn [micros].
  destruct (Z.leb_spec (micros now2 - 7 * micros_per_day) (micros (timestamp o))) as [H2|H2];
    [|apply andb_false_r].
  rewrite andb_true_r. apply Z.leb_le. lia.
Qed.

(** Sweeps at 02:00 and at 12:00 after two calls of the scenario. *)
Lemma cleanup_after_cleanup_witness :
  snd (_cleanup_old_observations noon
         (snd (_cleanup_old_observations night
                 (snd (run (priya_calls 2) (ObserverAgent_init empty_db)))))) =
  snd (_cleanup_old_observations noon
         (snd (run (priya_calls 2) (ObserverAgent_init empty_db)))).
Proof.
  apply (cleanup_after_cleanup night noon
           (snd (run (priya_calls 2) (ObserverAgent_init empty_db)))).
  vm_compute. discriminate.
Defined.

(** ** The window of recent observations *)

Lemma filter_sublist_bool {A} (p q : A -> bool) (l : list A) :
  (forall x, p x = true -> q x = true) ->
  sublist (List.filter p l) (List.filter q l).
Proof.
  intros Hpq. induction l as [|x l IH]; cbn; [constructor|].
  destruct (p x) eqn:Hp.
  - rewrite (Hpq x Hp). by constructor.
  - destruct (q x); [by constructor|exact IH].
Qed.

Lemma filter_sublist_list {A} (p : A -> bool) (l : list A) : sublist (List.filter p l) l.
Proof. induction l as [|x l IH]; cbn; [constructor|]. destruct (p x); by constructor. Qed.

(** Right after a sweep, the window of the last 168 hours at the same time
    is the whole list: the sweep keeps what this query returns. *)
Theorem get_recent_observations_after_cleanup (now : datetime) (self : ObserverAgent) :
  (7 * micros_per_day <= micros now <= datetime_max_micros)%Z ->
  get_recent_observations now 168 (snd (_cleanup_old_observations now self)) =
    Some (observed_actions (snd (_cleanup_old_observations now self))).
Proof.
  intros [Hlo Hhi]. unfold get_recent_observations, minus_hours.
  assert (Hcut : (micros now - 168 * micros_per_hour = micros now - 7 * micros_per_day)%Z)
    by (unfold micros_per_day; lia).
  rewrite Hcut.
  destruct (Z.leb_spec 0 (micros now - 7 * micros_per_day)); [|lia].
  destruct (Z.leb_spec (micros now - 7 * micros_per_day) datetime_max_micros);
    [|unfold micros_per_day, micros_per_hour in *; lia].
  cbn [andb]. f_equal.
  unfold _cleanup_old_observations, bind, get_self, set_observed_actions.
  cbn [fst snd observed_actions]. unfold minus_days.
  rewrite filter_filter_bool. apply List.filter_ext. intros o. apply andb_diag.
Qed.

Lemma get_recent_observations_after_cleanup_witness :
  get_recent_observations noon 168
    (snd (_cleanup_old_observations noon
            (snd (run (priya_calls 2) (ObserverAgent_init empty_db))))) =
    Some (observed_actions
            (snd (_cleanup_old_observations noon
                    (snd (run (priya_calls 2) (ObserverAgent_init empty_db)))))).
Proof.
  apply (get_recent_observations_after_cleanup noon
           (snd (run (priya_calls 2) (ObserverAgent_init empty_db)))).
  vm_compute. split; discriminate.
Defined.

(** A longer window returns more: what the query returns for a number of
    hours is, in order, part of what it returns for a larger number, which
    is part of the list; the query with a number of hours that reaches
    before the year 1 fails. *)
Theorem get_recent_observations_monotone (now : datetime) (h1 h2 : Z)
    (self : ObserverAgent) (l1 l2 : list Observation) :
  (h1 <= h2)%Z ->
  get_recent_observations now h1 self = Some l1 ->
  get_recent_observations now h2 self = Some l2 ->
  sublist l1 l2 /\ sublist l2 (observed_actions self)
  /\ forall h, (micros now < h * micros_per_hour)%Z ->
               get_recent_observations now h self = None.
Proof.
  intros Hle H1 H2. unfold get_recent_observations, minus_hours in *.
  destruct (_ && _)%bool in H1; [|discriminate].
  destruct (_ && _)%bool in H2; [|discriminate].
  injection H1 as <-. injection H2 as <-. split; [|split].
  - apply filter_sublist_bool. intros o. unfold datetime_ge. cbn [micros].
    rewrite !Z.leb_le. unfold micros_per_hour. lia.
  - apply filter_sublist_list.
  - intros h Hh. destruct (Z.leb_spec 0 (micros now - h * micros_per_hour)); [lia|].
    reflexivity.
Qed.

Lemma get_recent_observations_monotone_witness :
  sublist (observed_actions (snd (run (priya_calls 2) (ObserverAgent_init empty_db))))
    (observed_actions (snd (run (priya_calls 2) (ObserverAgent_init empty_db))))
  /\ sublist (observed_actions (snd (run (priya_calls 2) (ObserverAgent_init empty_db))))
       (observed_actions (snd (run (priya_calls 2) (ObserverAgent_init empty_db))))
  /\ forall h, (micros (Datetime (micros noon + 1000000)) < h * micros_per_hour)%Z ->
               get_recent_observations (Datetime (micros noon + 1000000)) h
                 (snd (run (priya_calls 2) (ObserverAgent_init empty_db))) = None.
Proof.
  apply (get_recent_observations_monotone (Datetime (micros noon + 1000000)) 1 24
           (snd (run (priya_calls 2) (ObserverAgent_init empty_db)))).
  - lia.
  - vm_compute. reflexivity.
  - vm_compute. reflexivity.
Defined.

(** ** A clock that does not go back *)

Lemma StronglySorted_sublist {A} (R : A -> A -> Prop) (l k : list A) :
  sublist l k -> StronglySorted R k -> StronglySorted R l.
Proof.
  induction 1 as [|x l k Hsub IH|x l k Hsub IH]; intros Hk.
  - constructor.
  - apply StronglySorted_inv in Hk as [Hk Hx]. constructor; [by apply IH|].
    rewrite List.Forall_forall in *. intros y Hy. apply Hx.
    apply list_elem_of_In. eapply elem_of_sublist; [|exact Hsub]. by apply list_elem_of_In.
  - apply StronglySorted_inv in Hk as [Hk _]. by apply IH.
Qed.

Lemma sublist_map {A B} (f : A -> B) (l k : list A) :
  sublist l k -> sublist (map f l) (map f k).
Proof. induction 1; cbn; by constructor. Qed.

Lemma sublist_tl {A} (l : list A) : sublist (tl l) l.
Proof. destruct l; cbn; [constructor|]. by constructor. Qed.

(** One call keeps the order: the times of the list followed by the times
    of the calls to come stay a part of what they were. *)
Lemma do_call_times c rest self :
  sublist
    (map (fun o => micros (timestamp o)) (observed_actions (snd (do_call c self)))
     ++ watch_times rest)
    (map (fun o => micros (timestamp o)) (observed_actions self)
     ++ watch_times (c :: rest)).
Proof.
  destruct c as [clk u a ctx|now]; cbn [do_call watch_times flat_map].
  - rewrite watch_action_unfold. cbn zeta.
    destruct (save_observation _ _) as [db2|e]; cbn [snd observed_actions app].
    + change (micros (now_observation clk) :: flat_map _ rest)
        with ([micros (now_observation clk)] ++ watch_times rest).
      rewrite app_assoc. apply sublist_app; [|reflexivity].
      change [micros (now_observation clk)]
        with (map (fun o => micros (timestamp o))
                [{| timestamp := now_observation clk; user := u; action := a;
                    context := ctx;
                    risk_level :=
                      fst (analyze_risk (risk_analyzer self) (now_rules clk) ctx);
                    alert_triggered := true; processed := false |}]).
      rewrite <- map_app. apply sublist_map.
      destruct (1000 <? _)%nat; [apply sublist_tl|reflexivity].
    + apply sublist_app; [reflexivity|]. by constructor.
  - cbn [snd _cleanup_old_observations bind get_self set_observed_actions
         observed_actions fst app].
    apply sublist_app; [|reflexivity]. apply sublist_map, filter_sublist_list.
Qed.

Lemma run_times calls : forall self,
  StronglySorted Z.le
    (map (fun o => micros (timestamp o)) (observed_actions self) ++ watch_times calls) ->
  StronglySorted Z.le
    (map (fun o => micros (timestamp o)) (observed_actions (snd (run calls self)))).
Proof.
  induction calls as [|c rest IH]; intros self Hs.
  - cbn in *. by rewrite app_nil_r in Hs.
  - cbn [run]. pose proof (do_call_times c rest self) as Hsub.
    destruct (do_call c self) as [r self1]. cbn [snd] in Hsub.
    specialize (IH self1 (StronglySorted_sublist _ _ _ Hsub Hs)).
    by destruct (run rest self1) as [outs self2].
Qed.

Lemma filter_sorted_suffix (c : Z) (l : list Observation) :
  StronglySorted Z.le (map (fun o => micros (timestamp o)) l) ->
  exists k, List.filter (fun o => (c <=? micros (timestamp o))%Z) l = skipn k l.
Proof.
  induction l as [|x l IH]; intros Hs; [by exists 0%nat|].
  cbn [map] in Hs. apply StronglySorted_inv in Hs as [Hs Hx].
  cbn [List.filter]. destruct (Z.leb_spec c (micros (timestamp x))) as [Hc|Hc].
  - exists 0%nat. cbn [skipn]. f_equal.
    rewrite List.Forall_forall in Hx. clear IH Hs.
    induction l as [|y l IHl]; [reflexivity|]. cbn [List.filter].
    assert (Hy : (micros (timestamp x) <= micros (timestamp y))%Z)
      by (apply Hx; cbn; by left).
    destruct (Z.leb_spec c (micros (timestamp y))); [|lia].
    f_equal. apply IHl. intros z Hz. apply Hx. cbn. by right.
  - destruct (IH Hs) as [k Hk]. exists (S k). exact Hk.
Qed.

(** When the clock does not go back between the [watch_action] calls of a
    sequence on a new agent, the list is in the order of its timestamps,
    and a sweep then removes a prefix of it: the oldest entries. *)
Theorem monotone_clock_sorted_list (db : Database) (calls : list call) (now : datetime) :
  StronglySorted Z.le (watch_times calls) ->
  StronglySorted Z.le
    (map (fun o => micros (timestamp o))
       (observed_actions (snd (run calls (ObserverAgent_init db)))))
  /\ exists k,
       observed_actions
         (snd (_cleanup_old_observations now (snd (run calls (ObserverAgent_init db))))) =
       skipn k (observed_actions (snd (run calls (ObserverAgent_init db)))).
Proof.
  intros Hs.
  assert (Hsorted : StronglySorted Z.le
            (map (fun o => micros (timestamp o))
               (observed_actions (snd (run calls (ObserverAgent_init db))))))
    by (apply run_times; exact Hs).
  split; [exact Hsorted|].
  unfold _cleanup_old_observations, bind, get_self, set_observed_actions.
  cbn [fst snd observed_actions]. unfold datetime_ge, minus_days. cbn [micros].
  by apply filter_sorted_suffix.
Qed.

(** Three calls of the scenario, one second apart, then a sweep at noon. *)
Lemma monotone_clock_sorted_list_witness :
  StronglySorted Z.le
    (map (fun o => micros (timestamp o))
       (observed_actions (snd (run (priya_calls 3) (ObserverAgent_init empty_db)))))
  /\ exists k,
       observed_actions
         (snd (_cleanup_old_observations noon
                 (snd (run (priya_calls 3) (ObserverAgent_init empty_db))))) =
       skipn k (observed_actions (snd (run (priya_calls 3) (ObserverAgent_init empty_db)))).
Proof.
  apply (monotone_clock_sorted_list empty_db (priya_calls 3) noon).
  vm_compute. repeat constructor; discriminate.
Defined.

(** ** Reading the observations back *)

Lemma insert_desc_length r l : length (insert_desc r l) = S (length l).
Proof.
  induction l as [|x l IH]; cbn; [reflexivity|].
  destruct (_ <=? _)%Z; cbn; by rewrite ?IH.
Qed.

Lemma insert_desc_in r l x : In x (insert_desc r l) <-> x = r \/ In x l.
Proof.
  induction l as [|y l IH]; cbn; [intuition|].
  destruct (_ <=? _)%Z; cbn; [intuition|]. rewrite IH. intuition.
Qed.

Lemma insert_desc_sorted r l :
  StronglySorted
    (fun a b => (micros (row_timestamp (snd b)) <= micros (row_timestamp (snd a)))%Z) l ->
  StronglySorted
    (fun a b => (micros (row_timestamp (snd b)) <= micros (row_timestamp (snd a)))%Z)
    (insert_desc r l).
Proof.
  induction l as [|x l IH]; intros Hs; cbn.
  - repeat constructor.
  - apply StronglySorted_inv in Hs as [Hs Hx].
    destruct (Z.leb_spec (micros (row_timestamp (snd x))) (micros (row_timestamp (snd r))))
      as [Hle|Hgt].
    + constructor; [by constructor|]. constructor; [exact Hle|].
      rewrite List.Forall_forall in *. intros y Hy. specialize (Hx y Hy). cbn in *. lia.
    + constructor; [by apply IH|]. rewrite List.Forall_forall in *. intros y Hy.
      apply insert_desc_in in Hy as [->|Hy]; [cbn; lia|by apply Hx].
Qed.

Lemma order_by_timestamp_desc_length rows :
  length (order_by_timestamp_desc rows) = length rows.
Proof.
  unfold order_by_timestamp_desc.
  induction rows as [|r rows IH]; cbn; [reflexivity|]. by rewrite insert_desc_length, IH.
Qed.

Lemma order_by_timestamp_desc_in rows x :
  In x (order_by_timestamp_desc rows) <-> In x rows.
Proof.
  unfold order_by_timestamp_desc.
  induction rows as [|r rows IH]; cbn; [tauto|]. rewrite insert_desc_in, IH. intuition.
Qed.

Lemma order_by_timestamp_desc_sorted rows :
  StronglySorted
    (fun a b => (micros (row_timestamp (snd b)) <= micros (row_timestamp (snd a)))%Z)
    (order_by_timestamp_desc rows).
Proof.
  unfold order_by_timestamp_desc.
  induction rows as [|r rows IH]; cbn; [constructor|]. by apply insert_desc_sorted.
Qed.

Lemma combine_seq_in {A} (l : list A) : forall s i x,
  In (i, x) (combine (seq s (length l)) l) ->
  (s <= i)%nat /\ nth_error l (i - s) = Some x.
Proof.
  induction l as [|y l IH]; intros s i x; cbn; [tauto|].
  intros [Heq|Hin].
  - injection Heq as <- <-. split; [lia|]. by rewrite Nat.sub_diag.
  - apply IH in Hin as [Hle Hnth]. split; [lia|].
    replace (i - s)%nat with (S (i - S s)) by lia. exact Hnth.
Qed.

(** With a limit that SQLite accepts, [get_observations] returns rows of
    the table with their ids, the most recent first, as many as the table
    has but no more than a limit that is not negative; with another limit
    it fails. *)
Theorem get_observations_sorted_bounded (db : Database) (limit : Z) :
  (- 2 ^ 63 <= limit < 2 ^ 63)%Z ->
  exists rows,
    get_observations db limit = Some rows
    /\ StronglySorted
         (fun a b => (micros (row_timestamp (snd b)) <= micros (row_timestamp (snd a)))%Z)
         rows
    /\ length rows =
         (if (limit <? 0)%Z then length (observations db)
          else Nat.min (Z.to_nat limit) (length (observations db)))
    /\ (forall id row, In (id, row) rows ->
          (1 <= id)%nat /\ nth_error (observations db) (id - 1) = Some row)
    /\ (forall other, (other < - 2 ^ 63 \/ 2 ^ 63 <= other)%Z ->
          get_observations db other = None).
Proof.
  intros [Hlo Hhi]. unfold get_observations.
  destruct (Z.leb_spec (- 2 ^ 63) limit); [|lia].
  destruct (Z.ltb_spec limit (2 ^ 63)); [|lia]. cbn [andb].
  eexists. split; [reflexivity|].
  pose proof (order_by_timestamp_desc_sorted (with_ids (observations db))) as Hs.
  assert (Hlen : length (order_by_timestamp_desc (with_ids (observations db))) =
                 length (observations db)).
  { rewrite order_by_timestamp_desc_length. unfold with_ids.
    rewrite length_combine, length_seq. lia. }
  assert (Hin : forall id row,
            In (id, row) (order_by_timestamp_desc (with_ids (observations db))) ->
            (1 <= id)%nat /\ nth_error (observations db) (id - 1) = Some row).
  { intros id row Hin. apply (proj1 (order_by_timestamp_desc_in _ _)) in Hin.
    unfold with_ids in Hin. exact (combine_seq_in _ _ _ _ Hin). }
  split; [|split; [|split]].
  - destruct (limit <? 0)%Z; [exact Hs|].
    eapply StronglySorted_sublist; [apply sublist_take|exact Hs].
  - destruct (limit <? 0)%Z; [exact Hlen|]. by rewrite length_firstn, Hlen.
  - intros id row Hrow. apply Hin. destruct (limit <? 0)%Z; [exact Hrow|].
    apply list_elem_of_In. eapply elem_of_sublist; [|apply sublist_take].
    apply list_elem_of_In. exact Hrow.
  - intros other [Ho|Ho].
    + destruct (Z.leb_spec (- 2 ^ 63) other); [lia|reflexivity].
    + destruct (Z.ltb_spec other (2 ^ 63)); [lia|]. by rewrite andb_false_r.
Qed.

(** The dashboard's read, [get_observations(500)], after two calls of the
    scenario. *)
Lemma get_observations_sorted_bounded_witness :
  exists rows,
    get_observations (database (snd (run (priya_calls 2) (ObserverAgent_init empty_db))))
      500 = Some rows
    /\ StronglySorted
         (fun a b => (micros (row_timestamp (snd b)) <= micros (row_timestamp (snd a)))%Z)
         rows
    /\ length rows =
         (if (500 <? 0)%Z
          then length (observations
                         (database (snd (run (priya_calls 2) (ObserverAgent_init empty_db)))))
          else Nat.min (Z.to_nat 500)
                 (length (observations
                            (database (snd (run (priya_calls 2)
                                              (ObserverAgent_init empty_db)))))))
    /\ (forall id row, In (id, row) rows ->
          (1 <= id)%nat
          /\ nth_error (observations
                          (database (snd (run (priya_calls 2)
                                            (ObserverAgent_init empty_db)))))
               (id - 1) = Some row)
    /\ (forall other, (other < - 2 ^ 63 \/ 2 ^ 63 <= other)%Z ->
          get_observations
            (database (snd (run (priya_calls 2) (ObserverAgent_init empty_db))))
            other = None).
Proof.
  apply (get_observations_sorted_bounded
           (database (snd (run (priya_calls 2) (ObserverAgent_init empty_db)))) 500).
  vm_compute. split; [discriminate|reflexivity].
Defined.

Lemma combine_seq_snoc {A} (l : list A) x : forall s,
  combine (seq s (length (l ++ [x]))) (l ++ [x]) =
    combine (seq s (length l)) l ++ [((s + length l)%nat, x)].
Proof.
  induction l as [|y l IH]; intros s; cbn.
  - by rewrite Nat.add_0_r.
  - rewrite IH. by replace (S s + length l)%nat with (s + S (length l))%nat by lia.
Qed.

Lemma with_ids_snoc rows row :
  with_ids (rows ++ [row]) = with_ids rows ++ [(S (length rows), row)].
Proof. unfold with_ids. by rewrite combine_seq_snoc. Qed.

Lemma order_newest_first (newest : nat * observation_row) rows : forall base,
  Forall (fun r => (micros (row_timestamp (snd r)) < micros (row_timestamp (snd newest)))%Z)
    rows ->
  foldr insert_desc (newest :: base) rows = newest :: foldr insert_desc base rows.
Proof.
  induction rows as [|r rows IH]; intros base Hall; [reflexivity|].
  apply Forall_cons in Hall as [Hr Hall]. cbn [foldr]. rewrite (IH base Hall).
  cbn [insert_desc].
  destruct (Z.leb_spec (micros (row_timestamp (snd newest))) (micros (row_timestamp (snd r))));
    [lia|reflexivity].
Qed.

Lemma with_ids_forall (P : observation_row -> Prop) rows :
  Forall P rows -> Forall (fun r => P (snd r)) (with_ids rows).
Proof.
  unfold with_ids. generalize 1%nat.
  induction rows as [|x rows IH]; intros s Hall; cbn; [constructor|].
  apply Forall_cons in Hall as [Hx Hall]. constructor; [exact Hx|by apply IH].
Qed.

(** Saving then reading: when the observation saved is more recent than
    every row of the table, [get_observations] with a limit of 1 or more
    returns its row first, with the next id and the JSON document of its
    context. *)
Theorem save_then_get_observations (db db' : Database) (o : Observation) (limit : Z) :
  save_observation db o = Ok db' ->
  Forall (fun row => (micros (row_timestamp row) < micros (timestamp o))%Z)
    (observations db) ->
  (1 <= limit < 2 ^ 63)%Z ->
  exists rest,
    get_observations db' limit =
      Some ((S (length (observations db)), row_of o (omap encode (context o))) :: rest).
Proof.
  intros Hsave Hnew [Hlo Hhi]. apply save_observation_ok_inv in Hsave as [_ ->].
  unfold get_observations. cbn [observations].
  destruct (Z.leb_spec (- 2 ^ 63) limit); [|lia].
  destruct (Z.ltb_spec limit (2 ^ 63)); [|lia].
  destruct (Z.ltb_spec limit 0); [lia|]. cbn [andb].
  rewrite with_ids_snoc. unfold order_by_timestamp_desc. rewrite foldr_app. cbn [foldr].
  cbn [insert_desc]. rewrite order_newest_first
    by (cbn [snd row_of row_timestamp];
        apply (with_ids_forall
                 (fun row => (micros (row_timestamp row) < micros (timestamp o))%Z));
        exact Hnew).
  destruct (Z.to_nat limit) as [|k] eqn:Hk; [lia|]. cbn [firstn]. eauto.
Qed.

(** A second observation of the scenario, one second after the first, saved
    and read by the dashboard. *)
Lemma save_then_get_observations_witness :
  exists rest,
    get_observations
      {| observations :=
           observations (database (snd (run (priya_calls 1) (ObserverAgent_init empty_db))))
           ++ [row_of (priya_observation 1) (omap encode (context (priya_observation 1)))];
         alerts := alerts (database (snd (run (priya_calls 1) (ObserverAgent_init empty_db))))
      |} 500 =
      Some ((S (length (observations
                          (database (snd (run (priya_calls 1)
                                            (ObserverAgent_init empty_db)))))),
             row_of (priya_observation 1) (omap encode (context (priya_observation 1))))
            :: rest).
Proof.
  apply (save_then_get_observations
           (database (snd (run (priya_calls 1) (ObserverAgent_init empty_db))))
           {| observations :=
                observations
                  (database (snd (run (priya_calls 1) (ObserverAgent_init empty_db))))
                ++ [row_of (priya_observation 1)
                      (omap encode (context (priya_observation 1)))];
              alerts :=
                alerts (database (snd (run (priya_calls 1) (ObserverAgent_init empty_db))))
           |} (priya_observation 1) 500).
  - vm_compute. reflexivity.
  - apply (bool_decide_unpack _). vm_compute. exact I.
  - vm_compute. split; [discriminate|reflexivity].
Defined.

(** ** The form and the simulation *)

Lemma timestamp_not_serializable (ctx : gmap string value) t :
  ~ serializable (<["timestamp" := VDatetime t]> ctx).
Proof.
  intros Hser. destruct (Hser "timestamp" (VDatetime t)) as [j Hj].
  - apply lookup_insert_eq.
  - discriminate.
Qed.

Lemma submit_context_timestamp py_float py_int now amount country risk_score
    is_weekend attempt_count context :
  submit_context py_float py_int now amount country risk_score is_weekend attempt_count
    = Some context ->
  context !! "timestamp" = Some (VDatetime now).
Proof.
  unfold submit_context.
  destruct (if truthy amount then _ else _); [|discriminate].
  destruct (if truthy risk_score then _ else _); [|discriminate].
  destruct (if truthy attempt_count then _ else _); [|discriminate].
  intros Heq. injection Heq as <-.
  rewrite !lookup_insert_ne by discriminate. apply lookup_insert_eq.
Qed.

Lemma lookup_datetime_not_serializable (ctx : gmap string value) key t :
  ctx !! key = Some (VDatetime t) -> ~ serializable ctx.
Proof. intros Hk Hser. destruct (Hser key _ Hk) as [j Hj]. discriminate. Qed.

(** The form never records an observation: whatever is entered, and
    whatever [float] and [int] do with it, [submit_observation] reports an
    error; the table of observations, the list and the statistics stay as
    they were, and at most one alert is appended. *)
Theorem submit_observation_always_fails (py_float py_int : value -> option value)
    (now : datetime) (clk : Clock) (u a : string)
    (amount country risk_score is_weekend attempt_count : value) (self : ObserverAgent) :
  let r := submit_observation py_float py_int now clk u a amount country risk_score
             is_weekend attempt_count self in
  fst r = Failed
  /\ observations (database (snd r)) = observations (database self)
  /\ observed_actions (snd r) = observed_actions self
  /\ stats (snd r) = stats self
  /\ (alerts (database (snd r)) = alerts (database self)
      \/ exists al, alerts (database (snd r)) = alerts (database self) ++ [al]).
Proof.
  cbn zeta. unfold submit_observation.
  destruct (submit_context _ _ _ _ _ _ _ _) as [context|] eqn:Hctx; cbn [fst snd];
    [|repeat split; auto].
  apply submit_context_timestamp in Hctx.
  rewrite (watch_action_raise _ _ _ _ _ (lookup_datetime_not_serializable _ _ _ Hctx)).
  cbn [fst snd database observations alerts create_alert observed_actions stats].
  repeat split. right. eauto.
Qed.

(** [simulate_realistic_data] for one iteration or more raises [TypeError]
    in its first iteration: it leaves the state that the first
    [watch_action] leaves, with one alert appended and no observation
    stored, listed or counted; the other iterations do not run. *)
Theorem simulate_realistic_data_raises (s : sample) (rest : list sample)
    (self : ObserverAgent) :
  fst (simulate_realistic_data (s :: rest) self) = Raise TypeError
  /\ snd (simulate_realistic_data (s :: rest) self) =
     snd (watch_action (sample_clock s) (sample_user s) (sample_action s)
            (sample_context s) self)
  /\ observations (database (snd (simulate_realistic_data (s :: rest) self))) =
     observations (database self)
  /\ (exists al, alerts (database (snd (simulate_realistic_data (s :: rest) self))) =
                 alerts (database self) ++ [al])
  /\ observed_actions (snd (simulate_realistic_data (s :: rest) self)) =
     observed_actions self
  /\ stats (snd (simulate_realistic_data (s :: rest) self)) = stats self.
Proof.
  assert (Hser : ~ serializable (sample_context s)).
  { apply (lookup_datetime_not_serializable _ "timestamp" (sample_timestamp s)).
    unfold sample_context. rewrite !lookup_insert_ne by discriminate.
    apply lookup_insert_eq. }
  assert (Herr : json_error (sample_context s) = TypeError).
  { apply json_error_datetime. unfold sample_context. intros k n Hk.
    repeat (apply lookup_insert_Some in Hk as [[_ Heq]|[_ Hk]];
            [try discriminate Heq|]); [|by rewrite lookup_empty in Hk].
    injection Heq as <-. apply int_str_allowed_spec.
    assert (Hsix : (6 <= 10 ^ int_max_str_digits)%Z).
    { change 6%Z with (6 ^ 1)%Z at 1.
      etrans; [apply (Z.pow_le_mono_l 6 10 1); lia|].
      apply Z.pow_le_mono_r; unfold int_max_str_digits; lia. }
    pose proof (Z.mod_pos_bound (sample_attempt_draw s) 5 ltac:(lia)) as Hdraw.
    remember (10 ^ int_max_str_digits)%Z as bound. lia. }
  cbn [simulate_realistic_data]. unfold bind.
  rewrite (watch_action_raise _ _ _ _ _ Hser), Herr.
  cbn [fst snd database observations alerts create_alert observed_actions stats].
  repeat split. eauto.
Qed.

(** ** Values of another type *)

(** A value of the wrong type silences its rule instead of failing the
    call.  An amount, risk score or attempt count that is [None], a string
    or a datetime, a country that is [None], a boolean, a number or a
    datetime, and a timestamp that is [None], a boolean, a number or a
    string do not trigger their rule, whatever they hold: the comparison or
    the attribute raises and the rule is skipped.  And is_weekend is tested
    for truth, so that any string that is not empty triggers
    weekend_activity. *)
Theorem wrong_type_silences_rule (now : datetime) (ctx : gmap string value)
    (s : string) (t : datetime) (b : bool) (n : Z) (f : pyfloat) (c : ascii) :
  Forall (fun v =>
            high_amount now (<["amount" := v]> ctx) = Raise TypeError
            /\ high_risk_score now (<["risk_score" := v]> ctx) = Raise TypeError
            /\ multiple_attempts now (<["attempt_count" := v]> ctx) = Raise TypeError
            /\ triggers high_amount now (<["amount" := v]> ctx) = false
            /\ triggers high_risk_score now (<["risk_score" := v]> ctx) = false
            /\ triggers multiple_attempts now (<["attempt_count" := v]> ctx) = false)
    [VNone; VStr s; VDatetime t]
  /\ Forall (fun v =>
               suspicious_country now (<["country" := v]> ctx) = Raise AttributeError
               /\ triggers suspicious_country now (<["country" := v]> ctx) = false)
       [VNone; VBool b; VInt n; VFloat f; VDatetime t]
  /\ Forall (fun v =>
               unusual_time now (<["timestamp" := v]> ctx) = Raise AttributeError
               /\ triggers unusual_time now (<["timestamp" := v]> ctx) = false)
       [VNone; VBool b; VInt n; VFloat f; VStr s]
  /\ triggers weekend_activity now (<["is_weekend" := VStr (String c s)]> ctx) = true.
Proof.
  unfold triggers, high_amount, high_risk_score, multiple_attempts, suspicious_country,
    unusual_time, weekend_activity, dict_get, gt_const.
  split; [|split; [|split]].
  - repeat constructor; rewrite !lookup_insert_eq; reflexivity.
  - repeat constructor; rewrite !lookup_insert_eq; reflexivity.
  - repeat constructor; rewrite !lookup_insert_eq; reflexivity.
  - rewrite lookup_insert_eq. reflexivity.
Qed.

(** ** The alert of a call *)

